(** * zopflipy: the [_zopfli] extension module

    A shallow embedding of [_zopfli/_zopflimodule.c]: the two session
    objects [ZopfliCompressor] (struct [Compressor]) and [ZopfliDeflater]
    (struct [Deflater]), their constructors and their [compress] / [flush]
    methods.

    The zopfli library itself ([zopfli/zopfli.h], [zopfli/deflate.h]) is
    external to the module; it appears here as the class [Zopfli].  Every
    call into it is recorded in a log of [event]s, so that statements about
    how often and with which options the encoder runs can be made. *)

From Stdlib Require Import ZArith List Bool Ascii String Lia.
From Stdlib Require Import Strings.Byte.
Import ListNotations.
Open Scope Z_scope.

(** ** Host values *)

Definition bytes := list Byte.byte.

(** What a method receives as its [PyObject *data] argument ([METH_O]
    accepts any object).  [ZopfliDeflater] keeps such an argument by
    reference and reads its buffer in a later call, so objects are told
    apart by what may happen to their buffer in between: a [bytes] object
    is immutable and
    is known by its content; an object whose buffer can be changed or
    withdrawn between two calls (a [bytearray], a [memoryview], an
    [array.array]) is known by its identity, and what it exports during a
    call belongs to the environment of that call; any other object
    (an [int], [None], ...) exports no buffer. *)
Inductive PyObject : Type :=
| PyBytes (b : bytes)
| PyMutable (id : nat)
| PyOpaque.

(** The exceptions the module sets itself, and those the host runtime sets
    on its behalf.  [Propagated] stands for an exception raised by a callee
    written in Python (a raising [__bool__], a failing [import io]). *)
Inductive PyErr : Type :=
| ValueError (msg : string)
| TypeError
| BufferError
| MemoryError
| SystemError
| Propagated.

(** The outcome of a method or constructor: a value, [NULL] / [-1] with an
    exception set, or a read outside the output buffer (undefined in C). *)
Inductive result (A : Type) : Type :=
| Return (a : A)
| Raise (e : PyErr)
| Undefined.
Arguments Return {A} a.
Arguments Raise {A} e.
Arguments Undefined {A}.

Definition raised {A} (r : result A) : bool :=
  match r with Raise _ => true | _ => false end.

(** The environment of one call: which of the fallible host services
    succeed during it, and what the mutable objects export during it
    ([None] for one that exports nothing then). *)
Record Host : Type := mkHost {
  h_io     : bool;  (* [import io], [BytesIO()], [write], [getbuffer] / [getvalue] *)
  h_view   : bool;  (* [PyObject_GetBuffer] on an object that exports a buffer *)
  h_alloc  : bool;  (* the allocation inside [PyBytes_FromStringAndSize] *)
  h_lock   : bool;  (* [ALLOCATE_LOCK] *)
  h_buffer : nat -> option bytes
}.

(** No service fails, and there are no mutable objects. *)
Definition host_ok : Host := mkHost true true true true (fun _ => None).

(** [PyObject_GetBuffer(obj, &in, PyBUF_CONTIG_RO)] during a call, with
    the bytes of the view when it succeeds. *)
Definition PyObject_GetBuffer (h : Host) (obj : PyObject) : result bytes :=
  match obj with
  | PyOpaque => Raise TypeError
  | PyBytes b => if h_view h then Return b else Raise BufferError
  | PyMutable id =>
    match h_buffer h id with
    | Some b => if h_view h then Return b else Raise BufferError
    | None => Raise BufferError
    end
  end.

(** ** [size_t] and [Py_ssize_t] (LP64: both 64 bits wide) *)

Definition SIZE_BITS : Z := 64.
Definition SIZE_MOD : Z := 2 ^ SIZE_BITS.
Definition SSIZE_MAX : Z := 2 ^ (SIZE_BITS - 1) - 1.

Definition size_sub (a b : Z) : Z := (a - b) mod SIZE_MOD.
Definition size_add (a b : Z) : Z := (a + b) mod SIZE_MOD.

(** The conversion [size_t -> Py_ssize_t] at a call site. *)
Definition to_ssize (n : Z) : Z :=
  if n <=? SSIZE_MAX then n else n - SIZE_MOD.

(** The [outsize] that goes with a buffer [out]. *)
Definition size_of (b : bytes) : Z := Z.of_nat (List.length b).

(** [PyBytes_FromStringAndSize(mem + off, n)] where [mem] is the whole
    allocation the pointer points into. *)
Definition PyBytes_FromStringAndSize (h : Host) (mem : bytes) (off n : Z)
  : result bytes :=
  let size := to_ssize n in
  if size <? 0 then Raise SystemError
  else if negb (h_alloc h) then Raise MemoryError
  else if off + size <=? size_of mem
       then Return (firstn (Z.to_nat size) (skipn (Z.to_nat off) mem))
       else Undefined.

(** ** The zopfli library *)

(** [ZopfliOptions], with the fields the module reads or writes. *)
Record ZopfliOptions : Type := mkOptions {
  verbose            : Z;
  numiterations      : Z;
  blocksplitting     : Z;
  blocksplittinglast : Z;
  blocksplittingmax  : Z
}.

Definition set_verbose (v : Z) (o : ZopfliOptions) : ZopfliOptions :=
  mkOptions v (numiterations o) (blocksplitting o) (blocksplittinglast o)
            (blocksplittingmax o).
Definition set_numiterations (v : Z) (o : ZopfliOptions) : ZopfliOptions :=
  mkOptions (verbose o) v (blocksplitting o) (blocksplittinglast o)
            (blocksplittingmax o).
Definition set_blocksplitting (v : Z) (o : ZopfliOptions) : ZopfliOptions :=
  mkOptions (verbose o) (numiterations o) v (blocksplittinglast o)
            (blocksplittingmax o).
Definition set_blocksplittinglast (v : Z) (o : ZopfliOptions) : ZopfliOptions :=
  mkOptions (verbose o) (numiterations o) (blocksplitting o) v
            (blocksplittingmax o).
Definition set_blocksplittingmax (v : Z) (o : ZopfliOptions) : ZopfliOptions :=
  mkOptions (verbose o) (numiterations o) (blocksplitting o)
            (blocksplittinglast o) v.

(** What the module uses of zopfli: the three [ZopfliFormat] enumerators,
    the options [ZopfliInitOptions] fills in, and the two encoders.
    [ZopfliCompress o format input] is the buffer it hands back through
    [out] / [outsize]; [ZopfliDeflatePart o btype final input instart inend
    bp out] is the new bit pointer and the new buffer. *)
Class Zopfli : Type := {
  ZOPFLI_FORMAT_GZIP    : Z;
  ZOPFLI_FORMAT_ZLIB    : Z;
  ZOPFLI_FORMAT_DEFLATE : Z;
  ZopfliInitOptions     : ZopfliOptions;
  ZopfliCompress        : ZopfliOptions -> Z -> bytes -> bytes;
  ZopfliDeflatePart     : ZopfliOptions -> Z -> Z -> bytes -> Z -> Z ->
                          Z -> bytes -> Z * bytes
}.

(** One invocation of an encoder, with the arguments it was given. *)
Inductive event : Type :=
| CallCompress (o : ZopfliOptions) (format : Z) (input : bytes)
| CallDeflatePart (o : ZopfliOptions) (btype final : Z) (input : bytes)
                  (instart inend : Z) (bp : Z) (out : bytes).

(** An optional keyword argument in [PyArg_ParseTupleAndKeywords]: the
    target keeps its previous value when the argument is not supplied. *)
Definition parsed (supplied : option Z) (previous : Z) : Z :=
  match supplied with Some v => v | None => previous end.

(** ** ZopfliCompressor *)

Record Compressor : Type := mkCompressor {
  c_format  : Z;
  c_options : ZopfliOptions;
  c_data    : bytes;          (* the contents of the [io.BytesIO] *)
  c_flushed : bool            (* [int flushed], only ever 0 or 1 *)
}.

(** The keyword arguments as parsed; [ca_verbose] is what
    [PyObject_IsTrue] answers for the [verbose] object ([0] for the default
    [Py_False], [-1] when the truth test raises). *)
Record CompressorArgs : Type := mkCompressorArgs {
  ca_format              : option Z;
  ca_verbose             : Z;
  ca_iterations          : option Z;
  ca_block_splitting     : option Z;
  ca_block_splitting_max : option Z
}.

(** ** ZopfliDeflater: the object *)

Record Deflater : Type := mkDeflater {
  d_options : ZopfliOptions;
  d_bp      : Z;                 (* [unsigned char bp] *)
  d_out     : bytes;             (* [out], of length [outsize] *)
  d_data    : option PyObject;   (* a reference; [None] is [NULL] *)
  d_flushed : bool               (* [int flushed], only ever 0 or 1 *)
}.

Record DeflaterArgs : Type := mkDeflaterArgs {
  da_verbose             : Z;
  da_iterations          : option Z;
  da_block_splitting     : option Z;
  da_block_splitting_max : option Z
}.

(** A method call on a session object. *)
Inductive call : Type :=
| Compress (data : PyObject)
| Flush.

Section Module.
Context {zopfli : Zopfli}.

Definition known_format (format : Z) : bool :=
  (format =? ZOPFLI_FORMAT_GZIP) || (format =? ZOPFLI_FORMAT_ZLIB)
  || (format =? ZOPFLI_FORMAT_DEFLATE).

(** [Compressor_init] on a freshly allocated object; [None] for [args]
    means that [PyArg_ParseTupleAndKeywords] rejected the arguments. *)
Definition Compressor_init (h : Host) (args : option CompressorArgs)
  : result Compressor :=
  match args with
  | None => Raise TypeError
  | Some a =>
    let format := parsed (ca_format a) ZOPFLI_FORMAT_DEFLATE in
    let o := ZopfliInitOptions in
    let o := set_numiterations (parsed (ca_iterations a) (numiterations o)) o in
    let o := set_blocksplitting
               (parsed (ca_block_splitting a) (blocksplitting o)) o in
    let o := set_blocksplittingmax
               (parsed (ca_block_splitting_max a) (blocksplittingmax o)) o in
    if negb (known_format format)
    then Raise (ValueError "unknown format"%string)
    else
      let o := set_verbose (ca_verbose a) o in
      if verbose o <? 0 then Raise Propagated
      else
        let o := if (blocksplitting o <? 0) || (3 <? blocksplitting o)
                 then set_blocksplitting 1 o else o in
        if negb (h_io h) then Raise Propagated
        else if negb (h_lock h) then Raise MemoryError
        else Return (mkCompressor format o [] false)
  end.

Definition Compressor_compress (h : Host) (self : Compressor) (data : PyObject)
  : result bytes * Compressor :=
  if c_flushed self
  then (Raise (ValueError "Compressor has been flushed"%string), self)
  else
    match data with
    | PyOpaque => (Raise TypeError, self)
    | PyMutable id =>
      (* [write] copies what the object holds now *)
      match h_buffer h id with
      | None => (Raise BufferError, self)
      | Some b =>
        if negb (h_io h) then (Raise MemoryError, self)
        else (Return [],
              mkCompressor (c_format self) (c_options self) (c_data self ++ b)
                           (c_flushed self))
      end
    | PyBytes b =>
      if negb (h_io h) then (Raise MemoryError, self)
      else (Return [],
            mkCompressor (c_format self) (c_options self) (c_data self ++ b)
                         (c_flushed self))
    end.

(** The label [out:] of [Compressor_flush]: [self->flushed = 1]. *)
Definition Compressor_out (self : Compressor) : Compressor :=
  mkCompressor (c_format self) (c_options self) (c_data self) true.

Definition Compressor_flush (h : Host) (self : Compressor)
  : result bytes * Compressor * list event :=
  if c_flushed self
  then (Raise (ValueError "repeated call to flush()"%string),
        Compressor_out self, [])
  else if negb (h_io h) then (Raise MemoryError, Compressor_out self, [])
  else if negb (h_view h) then (Raise BufferError, Compressor_out self, [])
  else
    let input := c_data self in
    let format := c_format self in
    let o := c_options self in
    if blocksplitting o =? 3 then
      (* try block splitting first and last *)
      let o1 := set_blocksplittinglast 0 (set_blocksplitting 1 o) in
      let out := ZopfliCompress o1 format input in
      let o2 := set_blocksplittinglast 1 o1 in
      let out2 := ZopfliCompress o2 format input in
      let kept := if size_of out <? size_of out2 then out else out2 in
      (PyBytes_FromStringAndSize h kept 0 (size_of kept),
       Compressor_out (mkCompressor format o2 input (c_flushed self)),
       [CallCompress o1 format input; CallCompress o2 format input])
    else
      let out := ZopfliCompress o format input in
      (PyBytes_FromStringAndSize h out 0 (size_of out),
       Compressor_out self,
       [CallCompress o format input]).

(** ** ZopfliDeflater *)

(** The trim arithmetic of [deflate_part]: the offset into [self->out] and
    the number of bytes handed to [PyBytes_FromStringAndSize], from the
    [outsize] before the encoder ran ([pos]) and after it. *)
Definition deflate_part_slice (final : Z) (pos outsize : Z) : Z * Z :=
  if final =? 0 then
    (* exclude '256 (end of block)' symbol *)
    if pos =? 0 then (pos, size_sub outsize 1)
    else (size_sub pos 1, size_sub outsize pos)
  else
    (* include '256 (end of block)' symbol *)
    if pos =? 0 then (pos, outsize)
    else (size_sub pos 1, size_add (size_sub outsize pos) 1).

(** The label [out:] of [deflate_part]: [Py_CLEAR(self->data)]. *)
Definition deflate_part_out (self : Deflater) : Deflater :=
  mkDeflater (d_options self) (d_bp self) (d_out self) None (d_flushed self).

(** [self->data] is the object [compress] was given, kept by reference:
    its buffer is read here, in the call after the one that stored it. *)
Definition deflate_part (h : Host) (self : Deflater) (final : Z)
  : result bytes * Deflater * list event :=
  match d_data self with
  | None => (Return [], self, [])
  | Some data =>
    match PyObject_GetBuffer h data with
    | Return input =>
      let pos := size_of (d_out self) in
      let inlen := size_of input in
      let '(bp, out) :=
        ZopfliDeflatePart (d_options self) 2 final input 0 inlen
                          (d_bp self) (d_out self) in
      let '(off, n) := deflate_part_slice final pos (size_of out) in
      (PyBytes_FromStringAndSize h out off n,
       deflate_part_out
         (mkDeflater (d_options self) bp out (d_data self) (d_flushed self)),
       [CallDeflatePart (d_options self) 2 final input 0 inlen
                        (d_bp self) (d_out self)])
    | failure => (failure, deflate_part_out self, [])
    end
  end.

(** [Deflater_init] on a freshly allocated object. *)
Definition Deflater_init (h : Host) (args : option DeflaterArgs)
  : result Deflater :=
  match args with
  | None => Raise TypeError
  | Some a =>
    let o := ZopfliInitOptions in
    let o := set_numiterations (parsed (da_iterations a) (numiterations o)) o in
    let o := set_blocksplitting
               (parsed (da_block_splitting a) (blocksplitting o)) o in
    let o := set_blocksplittingmax
               (parsed (da_block_splitting_max a) (blocksplittingmax o)) o in
    let o := set_verbose (da_verbose a) o in
    if verbose o <? 0 then Raise Propagated
    else
      let o := if blocksplitting o =? 2
               then set_blocksplittinglast 1 (set_blocksplitting 1 o)
               else o in
      if negb (h_lock h) then Raise MemoryError
      else Return (mkDeflater o 0 [] None false)
  end.

(** [Py_INCREF(data); self->data = data]: the object itself is kept, not
    a copy of its bytes. *)
Definition Deflater_compress (h : Host) (self : Deflater) (data : PyObject)
  : result bytes * Deflater * list event :=
  if d_flushed self
  then (Raise (ValueError "Deflater has been flushed"%string), self, [])
  else
    let '(v, self, log) := deflate_part h self 0 in
    match v with
    | Return _ =>
      (v, mkDeflater (d_options self) (d_bp self) (d_out self) (Some data)
                     (d_flushed self), log)
    | _ => (v, self, log)
    end.

Definition Deflater_flush (h : Host) (self : Deflater)
  : result bytes * Deflater * list event :=
  if d_flushed self
  then (Raise (ValueError "repeated call to flush()"%string), self, [])
  else
    deflate_part h
      (mkDeflater (d_options self) (d_bp self) (d_out self) (d_data self) true)
      1.

(** ** Sessions: a sequence of method calls on one object *)

Definition Compressor_call (h : Host) (self : Compressor) (c : call)
  : result bytes * Compressor * list event :=
  match c with
  | Compress data =>
    let '(v, self) := Compressor_compress h self data in (v, self, [])
  | Flush => Compressor_flush h self
  end.

Definition Deflater_call (h : Host) (self : Deflater) (c : call)
  : result bytes * Deflater * list event :=
  match c with
  | Compress data => Deflater_compress h self data
  | Flush => Deflater_flush h self
  end.

(** Runs the calls in order; answers the value of each, the object after
    the last one, and the encoder invocations of the whole session. *)
Fixpoint session {S : Type}
    (step : Host -> S -> call -> result bytes * S * list event)
    (self : S) (calls : list (Host * call))
  : list (result bytes) * S * list event :=
  match calls with
  | [] => ([], self, [])
  | (h, c) :: rest =>
    let '(v, self, log) := step h self c in
    let '(vs, self, logs) := session step self rest in
    (v :: vs, self, log ++ logs)
  end.

End Module.

(** ** Module initialisation *)

(** What [PyInit__zopfli] puts into the module: integer constants and type
    objects (a type object is known by its [tp_name]). *)
Inductive attribute : Type :=
| IntConstant (v : Z)
| TypeObject (tp_name : string).

(** The module's dictionary, most recent binding first. *)
Definition module_dict := list (string * attribute).

Definition PyModule_Add (m : module_dict) (name : string) (v : attribute)
  : module_dict :=
  (name, v) :: filter (fun kv => negb (String.eqb (fst kv) name)) m.

Fixpoint PyModule_Get (m : module_dict) (name : string) : option attribute :=
  match m with
  | [] => None
  | (k, v) :: m => if String.eqb k name then Some v else PyModule_Get m name
  end.

(** Which host services succeed while the module is initialised. *)
Record InitHost : Type := mkInitHost {
  ih_create     : bool;             (* [PyModule_Create] *)
  ih_add_int    : string -> bool;   (* [PyModule_AddIntMacro], by name *)
  ih_type_ready : string -> bool;   (* [PyType_Ready], by [tp_name] *)
  ih_add_object : string -> bool    (* [PyModule_AddObject], by name *)
}.

Definition init_host_ok : InitHost :=
  mkInitHost true (fun _ => true) (fun _ => true) (fun _ => true).

(** [strrchr(s, c)] for a [c] other than the terminator: the tail of [s]
    that starts at the last [c], or [None] for [NULL]. *)
Fixpoint strrchr (s : string) (c : Ascii.ascii) : option string :=
  match s with
  | EmptyString => None
  | String a rest =>
    match strrchr rest c with
    | Some tail => Some tail
    | None => if Ascii.eqb a c then Some s else None
    end
  end.

Section ModuleInit.
Context {zopfli : Zopfli}.
(** The macro [MODULE] of [_zopflimodule.h], and the [tp_name] of
    [PNG_Type], which is defined in another file. *)
Variable MODULE : string.
Variable PNG_tp_name : string.

Definition Compressor_tp_name : string := (MODULE ++ ".ZopfliCompressor")%string.
Definition Deflater_tp_name : string := (MODULE ++ ".ZopfliDeflater")%string.

(** The macro [ADD_TYPE(m, tp)]. *)
Definition ADD_TYPE (ih : InitHost) (m : module_dict) (tp_name : string)
  : result module_dict :=
  if negb (ih_type_ready ih tp_name) then Raise Propagated
  else
    match strrchr tp_name "."%char with
    | Some (String _ name) =>
      if negb (ih_add_object ih name) then Raise Propagated
      else Return (PyModule_Add m name (TypeObject tp_name))
    | _ => Undefined
    end.

Definition PyModule_AddIntMacro (ih : InitHost) (m : module_dict)
    (name : string) (v : Z) : option module_dict :=
  if ih_add_int ih name then Some (PyModule_Add m name (IntConstant v))
  else None.

(** [PyInit__zopfli], as compiled for Python 3. *)
Definition PyInit__zopfli (ih : InitHost) : result module_dict :=
  if negb (ih_create ih) then Raise MemoryError
  else
    match PyModule_AddIntMacro ih [] "ZOPFLI_FORMAT_GZIP" ZOPFLI_FORMAT_GZIP with
    | None => Raise Propagated
    | Some m =>
    match PyModule_AddIntMacro ih m "ZOPFLI_FORMAT_ZLIB" ZOPFLI_FORMAT_ZLIB with
    | None => Raise Propagated
    | Some m =>
    match PyModule_AddIntMacro ih m "ZOPFLI_FORMAT_DEFLATE"
                               ZOPFLI_FORMAT_DEFLATE with
    | None => Raise Propagated
    | Some m =>
    match ADD_TYPE ih m Compressor_tp_name with
    | Return m =>
    match ADD_TYPE ih m Deflater_tp_name with
    | Return m => ADD_TYPE ih m PNG_tp_name
    | failure => failure
    end
    | failure => failure
    end
    end end end.

End ModuleInit.

(** ** A reference DEFLATE bit stream

    To run the module on concrete inputs the development carries a small
    stand-in for the zopfli library, and a decoder for what it writes.  The
    encoder keeps zopfli's calling convention (bits are or-ed into the last
    byte of [out] at [bp], bytes are appended) but only writes stored
    blocks, and an empty fixed-Huffman block for an empty input; the
    decoder follows RFC 1951 for these two block shapes and reports
    anything else as [Unsupported]. *)
Module Reference.

Definition bits_of_byte (b : Byte.byte) : list bool :=
  let '(b0, (b1, (b2, (b3, (b4, (b5, (b6, b7))))))) := Byte.to_bits b in
  [b0; b1; b2; b3; b4; b5; b6; b7].

Definition byte_of_bits (l : list bool) : Byte.byte :=
  let b i := nth i l false in
  Byte.of_bits (b 0, (b 1, (b 2, (b 3, (b 4, (b 5, (b 6, b 7)))))))%nat.

Definition byte_of_Z (z : Z) : Byte.byte :=
  match Byte.of_N (Z.to_N (z mod 256)) with Some b => b | None => x00 end.

(** [b | (bit << k)] *)
Definition or_bit (b : Byte.byte) (k : Z) (bit : bool) : Byte.byte :=
  byte_of_bits
    (map (fun '(i, x) => if (Z.of_nat i =? k) then x || bit else x)
         (combine (seq 0 8) (bits_of_byte b))).

(** The bit writer: a fresh zero byte when [bp] is 0, then the bit goes
    into the last byte. *)
Definition add_bit (bit : bool) (st : Z * bytes) : Z * bytes :=
  let '(bp, out) := st in
  let out := if bp =? 0 then out ++ [x00] else out in
  (Z.land (bp + 1) 7, removelast out ++ [or_bit (last out x00) bp bit]).

Definition add_bits (bits : list bool) (st : Z * bytes) : Z * bytes :=
  fold_left (fun st bit => add_bit bit st) bits st.

Definition add_bytes (data : bytes) (st : Z * bytes) : Z * bytes :=
  (0, snd st ++ data).

(** One stored block (BTYPE 00) of at most 65535 bytes. *)
Definition stored_block (final : bool) (data : bytes) (st : Z * bytes)
  : Z * bytes :=
  let len := Z.of_nat (List.length data) in
  let nlen := 65535 - len in
  add_bytes
    ([byte_of_Z len; byte_of_Z (len / 256);
      byte_of_Z nlen; byte_of_Z (nlen / 256)] ++ data)
    (add_bits [final; false; false] st).

Fixpoint stored_blocks (fuel : nat) (final : bool) (data : bytes)
    (st : Z * bytes) : Z * bytes :=
  match fuel with
  | O => stored_block final data st
  | S fuel =>
    if size_of data <=? 65535 then stored_block final data st
    else stored_blocks fuel final (skipn (Z.to_nat 65535) data)
           (stored_block false (firstn (Z.to_nat 65535) data) st)
  end.

(** An empty fixed-Huffman block (BTYPE 01): the header and the 7-bit code
    of the end-of-block symbol. *)
Definition empty_block (final : bool) (st : Z * bytes) : Z * bytes :=
  add_bits [final; true; false;
            false; false; false; false; false; false; false] st.

(** The stand-in for [ZopfliDeflatePart].  With block splitting on, an
    input of two bytes or more is cut in two blocks: after its first byte,
    or before its last byte when [blocksplittinglast] is set. *)
Definition write_part (o : ZopfliOptions) (btype final : Z) (input : bytes)
    (instart inend : Z) (bp : Z) (out : bytes) : Z * bytes :=
  let data := firstn (Z.to_nat (inend - instart))
                     (skipn (Z.to_nat instart) input) in
  let fin := negb (final =? 0) in
  let n := List.length data in
  match n with
  | O => empty_block fin (bp, out)
  | _ =>
    if (blocksplitting o =? 0) || (n <? 2)%nat
    then stored_blocks n fin data (bp, out)
    else
      let k := if blocksplittinglast o =? 0 then 1%nat else (n - 1)%nat in
      stored_blocks n fin (skipn k data)
        (stored_blocks n false (firstn k data) (bp, out))
  end.

(** The stand-in for [ZopfliCompress]: the raw stream, whatever the
    container format. *)
Definition write_whole (o : ZopfliOptions) (format : Z) (input : bytes)
  : bytes :=
  snd (write_part o 2 1 input 0 (size_of input) 0 []).

Definition zopfli : Zopfli := {|
  ZOPFLI_FORMAT_GZIP    := 0;
  ZOPFLI_FORMAT_ZLIB    := 1;
  ZOPFLI_FORMAT_DEFLATE := 2;
  ZopfliInitOptions     := mkOptions 0 15 1 0 15;
  ZopfliCompress        := write_whole;
  ZopfliDeflatePart     := write_part
|}.

(** *** The decoder *)






End Reference.

(** Where no other library is named, concrete runs use the reference one. *)
#[local] Existing Instance Reference.zopfli.

(** ** Vocabulary of the statements *)

(** [slice b lo hi] is [b[lo .. hi)]. *)
Definition slice (b : bytes) (lo hi : nat) : bytes :=
  firstn (hi - lo) (skipn lo b).

(** The values of the calls that returned, joined in call order. *)
Definition returned (vs : list (result bytes)) : bytes :=
  flat_map (fun v => match v with Return b => b | _ => [] end) vs.

Definition all_return (vs : list (result bytes)) : Prop :=
  Forall (fun v => exists b, v = Return b) vs.

(** The [final] argument a method passes to [deflate_part]. *)
Definition call_final (c : call) : Z :=
  match c with Compress _ => 0 | Flush => 1 end.

(** The trim rule as the specification words it: a non-final block with
    [pos > 0] is said to run through the new end of the buffer. *)
Definition spec_trim (c : call) (pos outsize : nat) (out : bytes) : bytes :=
  match c, pos with
  | Compress _, O => slice out 0 (outsize - 1)
  | Compress _, _ => slice out (pos - 1) outsize
  | Flush, O => slice out 0 outsize
  | Flush, _ => slice out (pos - 1) outsize
  end.

(** The options an encoder invocation was given. *)
Definition event_options (e : event) : ZopfliOptions :=
  match e with
  | CallCompress o _ _ => o
  | CallDeflatePart o _ _ _ _ _ _ _ => o
  end.

(** The [final] flag of an invocation of [ZopfliDeflatePart]. *)
Definition event_final (e : event) : option Z :=
  match e with
  | CallCompress _ _ _ => None
  | CallDeflatePart _ _ final _ _ _ _ _ => Some final
  end.

(** *** Invariants of a compressor *)

Section CompressorVocabulary.
Context {zopfli : Zopfli}.

(** What holds of every compressor there is: a known format and a
    block-splitting mode within the enumeration. *)
Definition Compressor_valid (self : Compressor) : Prop :=
  known_format (c_format self) = true /\
  0 <= blocksplitting (c_options self) <= 3.

(** What holds of every encoder run of a compressor with format
    [format]: it is a run of [ZopfliCompress] for that format, with block
    splitting off (0) or on (1, 2), never 3 and never out of range. *)
Definition Compressor_event (format : Z) (e : event) : Prop :=
  (exists input, e = CallCompress (event_options e) format input) /\
  0 <= blocksplitting (event_options e) <= 2.

End CompressorVocabulary.

(** *** Streams of parts *)

(** What the encoder may do to the output buffer: append to it, and change
    its last byte (whose free bits the next block fills).  It leaves at
    least one byte, a block header being three bits long. *)
Definition extends (out out' : bytes) : Prop :=
  (List.length out <= List.length out')%nat /\
  out' <> [] /\
  firstn (List.length out - 1) out' = firstn (List.length out - 1) out.

Section Stream.
Context {zopfli : Zopfli}.

(** The encoder as [deflate_part] calls it, on the pair [(bp, out)]. *)
Definition encode_chunk (o : ZopfliOptions) (final : Z) (chunk : bytes)
    (st : Z * bytes) : Z * bytes :=
  ZopfliDeflatePart o 2 final chunk 0 (size_of chunk) (fst st) (snd st).

(** The chunks [chunk :: rest] written one after the other into one bit
    stream, the last of them as the final block. *)
Fixpoint encode_stream (o : ZopfliOptions) (chunk : bytes) (rest : list bytes)
    (st : Z * bytes) : Z * bytes :=
  match rest with
  | [] => encode_chunk o 1 chunk st
  | next :: rest => encode_stream o next rest (encode_chunk o 0 chunk st)
  end.

(** Every encoder run of that stream [extends] the buffer it was given. *)
Fixpoint stream_extends (o : ZopfliOptions) (chunk : bytes) (rest : list bytes)
    (st : Z * bytes) : Prop :=
  match rest with
  | [] => extends (snd st) (snd (encode_chunk o 1 chunk st))
  | next :: rest =>
    extends (snd st) (snd (encode_chunk o 0 chunk st)) /\
    stream_extends o next rest (encode_chunk o 0 chunk st)
  end.

(** The encoder runs of that stream, in order. *)
Fixpoint stream_log (o : ZopfliOptions) (chunk : bytes) (rest : list bytes)
    (st : Z * bytes) : list event :=
  match rest with
  | [] => [CallDeflatePart o 2 1 chunk 0 (size_of chunk) (fst st) (snd st)]
  | next :: rest =>
    CallDeflatePart o 2 0 chunk 0 (size_of chunk) (fst st) (snd st)
    :: stream_log o next rest (encode_chunk o 0 chunk st)
  end.

(** Chunks written one after the other, each as a non-final block: what
    appends alone have had encoded. *)
Fixpoint encode_blocks (o : ZopfliOptions) (chunks : list bytes)
    (st : Z * bytes) : Z * bytes :=
  match chunks with
  | [] => st
  | chunk :: chunks => encode_blocks o chunks (encode_chunk o 0 chunk st)
  end.

Fixpoint blocks_extend (o : ZopfliOptions) (chunks : list bytes)
    (st : Z * bytes) : Prop :=
  match chunks with
  | [] => True
  | chunk :: chunks =>
    extends (snd st) (snd (encode_chunk o 0 chunk st)) /\
    blocks_extend o chunks (encode_chunk o 0 chunk st)
  end.

(** A well-formed log of a streaming encoder with options [o] whose bit
    pointer and buffer are [st]: every run is a [ZopfliDeflatePart] with
    these options, block type 2, over the whole of its input, starting
    from the bit pointer and buffer the run before it left; a run for a
    final block is the last one. *)
Fixpoint Deflater_log (o : ZopfliOptions) (st : Z * bytes) (log : list event)
  : Prop :=
  match log with
  | [] => True
  | e :: log =>
    exists final input,
      e = CallDeflatePart o 2 final input 0 (size_of input) (fst st) (snd st) /\
      (final = 0 \/ (final = 1 /\ log = [])) /\
      Deflater_log o (encode_chunk o final input st) log
  end.

(** The bit pointer and buffer after the runs of a log. *)
Fixpoint replay (st : Z * bytes) (log : list event) : Z * bytes :=
  match log with
  | CallDeflatePart o btype final input instart inend bp out :: log =>
    replay (ZopfliDeflatePart o btype final input instart inend bp out) log
  | _ => st
  end.

End Stream.

(** [compress(data)] for each object in turn, each call in its own
    environment. *)
Definition compress_calls (steps : list (Host * PyObject))
  : list (Host * call) :=
  map (fun step => (fst step, Compress (snd step))) steps.

(** What a session reads.  The object pending, [data], is read by the
    call that follows its append: by the next [compress], which is the
    head of [rest], or by the [flush()], made in the environment [last].
    [session_reads data rest last chunk chunks] says that each of these
    reads succeeds, that the first one finds [chunk] and the following
    ones find [chunks], and that the results can be allocated. *)
Fixpoint session_reads (data : PyObject) (rest : list (Host * PyObject))
    (last : Host) (chunk : bytes) (chunks : list bytes) : Prop :=
  match rest, chunks with
  | [], [] => PyObject_GetBuffer last data = Return chunk /\ h_alloc last = true
  | (h, next) :: rest, c :: chunks =>
    PyObject_GetBuffer h data = Return chunk /\ h_alloc h = true /\
    session_reads next rest last c chunks
  | _, _ => False
  end.

(** The same for appends alone: the object appended last is not read. *)
Fixpoint appends_read (data : PyObject) (rest : list (Host * PyObject))
    (chunks : list bytes) : Prop :=
  match rest, chunks with
  | [], [] => True
  | (h, next) :: rest, c :: chunks =>
    PyObject_GetBuffer h data = Return c /\ h_alloc h = true /\
    appends_read next rest chunks
  | _, _ => False
  end.

(** [compress(chunk)] for each chunk in turn, the chunks being [bytes]
    objects. *)
Definition appends (chunks : list bytes) : list (Host * call) :=
  map (fun chunk => (host_ok, Compress (PyBytes chunk))) chunks.

(** A whole session: the appends, then [flush()]. *)
Definition stream_calls (chunks : list bytes) : list (Host * call) :=
  appends chunks ++ [(host_ok, Flush)].


(** *** Concrete sessions on the reference encoder *)
Module Examples.
Import Reference.

Definition default_args : DeflaterArgs := mkDeflaterArgs 0 None None None.

(** [ZopfliDeflater()] *)
Definition fresh : Deflater := mkDeflater (mkOptions 0 15 1 0 15) 0 [] None false.

(** After [compress(b'')] and [compress(b'a')]: the empty chunk is encoded
    (two bytes, two bits of the second one used), [b'a'] is pending. *)
Definition pending_a : Deflater :=
  mkDeflater (mkOptions 0 15 1 0 15) 2 [x02; x00] (Some (PyBytes [x61])) false.

(** An environment in which the mutable object 0 holds [content]. *)
Definition holding (content : bytes) : Host :=
  mkHost true true true true
         (fun id => match id with O => Some content | S _ => None end).

(** [ZopfliCompressor(block_splitting=3)] after [compress(b'abc')]. *)
Definition try_both_args : CompressorArgs :=
  mkCompressorArgs None 0 None (Some 3) None.

Definition try_both_abc : Compressor :=
  mkCompressor 2 (mkOptions 0 15 3 0 15) [x61; x62; x63] false.

(** [ZopfliDeflater()] after [compress(1)]: the pending object has no
    buffer to export. *)
Definition pending_opaque : Deflater :=
  mkDeflater (mkOptions 0 15 1 0 15) 0 [] (Some PyOpaque) false.

(** [ZopfliCompressor()] after [compress(b'ab')]. *)
Definition compressor_ab : Compressor :=
  mkCompressor 2 (mkOptions 0 15 1 0 15) [x61; x62] false.

End Examples.

(** * Properties *)

(** ** Slices and machine arithmetic *)

Lemma SIZE_MOD_eq : SIZE_MOD = 18446744073709551616.
Proof. reflexivity. Qed.

Lemma SSIZE_MAX_eq : SSIZE_MAX = 9223372036854775807.
Proof. reflexivity. Qed.

Lemma size_sub_exact a b :
  0 <= b <= a -> a <= SSIZE_MAX -> size_sub a b = a - b.
Proof.
  intros Hb Ha. unfold size_sub. rewrite SSIZE_MAX_eq in Ha.
  apply Z.mod_small. rewrite SIZE_MOD_eq. lia.
Qed.

Lemma size_add_exact a b :
  0 <= a -> 0 <= b -> a + b <= SSIZE_MAX -> size_add a b = a + b.
Proof.
  intros Ha Hb Hab. unfold size_add. rewrite SSIZE_MAX_eq in Hab.
  apply Z.mod_small. rewrite SIZE_MOD_eq. lia.
Qed.

Lemma to_ssize_exact n : 0 <= n <= SSIZE_MAX -> to_ssize n = n.
Proof.
  intros Hn. unfold to_ssize.
  destruct (Z.leb_spec n SSIZE_MAX); [reflexivity | lia].
Qed.

(** A read that stays inside the buffer, with memory to spare, is the
    slice it names. *)
Lemma PyBytes_FromStringAndSize_slice h mem (lo hi : nat) :
  h_alloc h = true ->
  (lo <= hi <= List.length mem)%nat ->
  size_of mem <= SSIZE_MAX ->
  PyBytes_FromStringAndSize h mem (Z.of_nat lo) (Z.of_nat (hi - lo))
  = Return (slice mem lo hi).
Proof.
  intros Hh Hr Hm. unfold PyBytes_FromStringAndSize, size_of in *.
  rewrite to_ssize_exact by lia.
  destruct (Z.ltb_spec (Z.of_nat (hi - lo)) 0); [lia|].
  rewrite Hh. cbn [negb].
  destruct (Z.leb_spec (Z.of_nat lo + Z.of_nat (hi - lo))
                       (Z.of_nat (List.length mem))); [|lia].
  unfold slice. now rewrite !Nat2Z.id.
Qed.

(** The trim arithmetic, read as a slice: from one byte before the old end
    (from the start when the buffer was empty) up to the new end, less one
    byte when the block is not the last. *)
Lemma deflate_part_slice_spec h final (out : bytes) (pos : nat) :
  h_alloc h = true ->
  (pos <= List.length out)%nat -> (1 <= List.length out)%nat ->
  size_of out <= SSIZE_MAX ->
  let '(off, n) := deflate_part_slice final (Z.of_nat pos) (size_of out) in
  PyBytes_FromStringAndSize h out off n
  = Return (slice out (pos - 1)
                  (if final =? 0 then List.length out - 1 else List.length out)).
Proof.
  intros Hh Hp H1 Hm. unfold deflate_part_slice.
  pose proof Hm as Hm'. unfold size_of in Hm'.
  destruct (final =? 0); destruct (Z.eqb_spec (Z.of_nat pos) 0) as [E|E].
  - assert (pos = 0)%nat by lia. subst pos.
    rewrite size_sub_exact by (unfold size_of; lia).
    replace (size_of out - 1) with (Z.of_nat (List.length out - 1 - 0))
      by (unfold size_of; lia).
    apply (PyBytes_FromStringAndSize_slice h out 0); auto; lia.
  - rewrite !size_sub_exact by (unfold size_of; lia).
    replace (Z.of_nat pos - 1) with (Z.of_nat (pos - 1)) by lia.
    replace (size_of out - Z.of_nat pos)
      with (Z.of_nat (List.length out - 1 - (pos - 1)))
      by (unfold size_of; lia).
    apply PyBytes_FromStringAndSize_slice; auto; lia.
  - assert (pos = 0)%nat by lia. subst pos.
    replace (size_of out) with (Z.of_nat (List.length out - 0))
      by (unfold size_of; lia).
    apply (PyBytes_FromStringAndSize_slice h out 0); auto; lia.
  - rewrite !size_sub_exact by (unfold size_of; lia).
    rewrite size_add_exact by (unfold size_of; lia).
    replace (Z.of_nat pos - 1) with (Z.of_nat (pos - 1)) by lia.
    replace (size_of out - Z.of_nat pos + 1)
      with (Z.of_nat (List.length out - (pos - 1)))
      by (unfold size_of; lia).
    apply PyBytes_FromStringAndSize_slice; auto; lia.
Qed.

(** ** One encoded chunk *)


Section OneChunk.
Context {zopfli : Zopfli}.

(** [deflate_part] with an object pending whose buffer can be read and
    holds [input] during this call, when the result can be allocated and
    the encoder left a non-empty buffer no shorter than before: the
    encoder ran once on [input], the object is released, and the value is
    the slice of [deflate_part_slice_spec]. *)
Lemma deflate_part_reads h self final data input :
  d_data self = Some data ->
  PyObject_GetBuffer h data = Return input ->
  h_alloc h = true ->
  let r := ZopfliDeflatePart (d_options self) 2 final input 0 (size_of input)
                             (d_bp self) (d_out self) in
  (List.length (d_out self) <= List.length (snd r))%nat ->
  (1 <= List.length (snd r))%nat ->
  size_of (snd r) <= SSIZE_MAX ->
  deflate_part h self final
  = (Return (slice (snd r) (List.length (d_out self) - 1)
                   (if final =? 0 then List.length (snd r) - 1
                    else List.length (snd r))),
     mkDeflater (d_options self) (fst r) (snd r) None (d_flushed self),
     [CallDeflatePart (d_options self) 2 final input 0 (size_of input)
                      (d_bp self) (d_out self)]).
Proof.
  intros Hd Hg Ha r Hle H1 Hm. unfold deflate_part. rewrite Hd, Hg.
  fold r. destruct r as [bp out] eqn:Er. cbn [fst snd] in *.
  pose proof (deflate_part_slice_spec h final out (List.length (d_out self))
                Ha Hle H1 Hm) as Hs.
  unfold size_of at 1.
  destruct (deflate_part_slice final (Z.of_nat (List.length (d_out self)))
                               (size_of out)) as [off n].
  rewrite Hs. reflexivity.
Qed.

End OneChunk.



(** A new streaming encoder: nothing written, nothing pending. *)
Lemma Deflater_init_new {zopfli : Zopfli} h args self :
  Deflater_init h args = Return self ->
  d_bp self = 0 /\ d_out self = [] /\ d_data self = None /\
  d_flushed self = false.
Proof.
  unfold Deflater_init. destruct args as [a|]; [|discriminate].
  destruct (_ <? 0); [discriminate|].
  destruct (negb (h_lock h)); [discriminate|].
  intros Hi. injection Hi as <-. cbn. auto.
Qed.


Lemma pending_a_is_reached :
  snd (fst (session Deflater_call Examples.fresh
              [(host_ok, Compress (PyBytes []));
               (host_ok, Compress (PyBytes [x61]))])) = Examples.pending_a.
Proof. vm_compute. reflexivity. Qed.

(** ** C1: the trim rule *)

(** C1 (as amended).  A call on the streaming encoder that encodes a
    pending chunk (the pending object, of whatever kind, holding [input]
    when the call reads it), with [pos] the length of the output buffer
    before the encoder ran and [outsize] its length after, returns: for
    [compress] (non-final), [out[0 .. outsize-1)] when [pos = 0] and
    [out[pos-1 .. outsize-1)] when [pos > 0]; for [flush] (final),
    [out[0 .. outsize)] when [pos = 0] and [out[pos-1 .. outsize)] when
    [pos > 0].  The buffer the session keeps is the encoder's. *)
Theorem C1_trim_rule {zopfli : Zopfli} h self data input c :
  d_flushed self = false ->
  d_data self = Some data ->
  PyObject_GetBuffer h data = Return input ->
  h_alloc h = true ->
  let pos := List.length (d_out self) in
  let out := snd (ZopfliDeflatePart (d_options self) 2 (call_final c) input
                                    0 (size_of input) (d_bp self) (d_out self)) in
  let outsize := List.length out in
  (pos <= outsize)%nat -> (1 <= outsize)%nat -> size_of out <= SSIZE_MAX ->
  fst (fst (Deflater_call h self c))
  = Return match c, pos with
           | Compress _, O => slice out 0 (outsize - 1)
           | Compress _, _ => slice out (pos - 1) (outsize - 1)
           | Flush, O => slice out 0 outsize
           | Flush, _ => slice out (pos - 1) outsize
           end
  /\ d_out (snd (fst (Deflater_call h self c))) = out.
Proof.
  intros Hf Hd Hv Ha pos out outsize Hle H1 Hm.
  destruct c as [data'|]; cbn [Deflater_call call_final] in *.
  - unfold Deflater_compress. rewrite Hf.
    rewrite (deflate_part_reads h self 0 data input Hd Hv Ha Hle H1 Hm).
    cbn. fold out outsize pos. split; [|reflexivity].
    destruct pos; reflexivity.
  - unfold Deflater_flush. rewrite Hf.
    set (self1 := mkDeflater _ _ _ _ true).
    rewrite (deflate_part_reads h self1 1 data input Hd Hv Ha Hle H1 Hm).
    cbn. fold out outsize pos. split; [|reflexivity].
    destruct pos; reflexivity.
Qed.

(** The rule at work: the third [compress] of a session returns the open
    byte and all of the new block but its last byte. *)
Lemma C1_trim_rule_witness :
  fst (fst (Deflater_call host_ok Examples.pending_a (Compress (PyBytes []))))
  = Return [x00; x01; x00; xfe; xff]
  /\ d_out (snd (fst (Deflater_call host_ok Examples.pending_a
                                    (Compress (PyBytes [])))))
     = [x02; x00; x01; x00; xfe; xff; x61].
Proof.
  pose proof (C1_trim_rule host_ok Examples.pending_a (PyBytes [x61]) [x61]
                (Compress (PyBytes []))) as H.
  cbv zeta in H. apply H; clear H; vm_compute;
    solve [reflexivity | lia | discriminate].
Defined.

(** C1 (as stated) fails for a non-final block with [pos > 0]: with two
    bytes in the buffer and seven after the encoder ran, [compress] returns
    the five bytes [out[1 .. 6)], not the six of [out[1 .. 7)]. *)
Lemma C1_counterexample :
  let self := Examples.pending_a in
  let c := Compress (PyBytes []) in
  let pos := List.length (d_out self) in
  let out := d_out (snd (fst (Deflater_call host_ok self c))) in
  pos = 2%nat /\ List.length out = 7%nat /\
  fst (fst (Deflater_call host_ok self c)) = Return (slice out 1 6) /\
  fst (fst (Deflater_call host_ok self c))
  <> Return (spec_trim c pos (List.length out) out).
Proof.
  vm_compute. repeat split; discriminate.
Qed.

(** ** C2: the pieces of a session make one stream *)

Lemma firstn_slice (l : bytes) (a b : nat) :
  (a <= b)%nat -> firstn a l ++ slice l a b = firstn b l.
Proof.
  intros Hab. unfold slice. rewrite firstn_skipn_comm.
  replace (a + (b - a))%nat with b by lia.
  replace (firstn a l) with (firstn a (firstn b l)).
  - apply firstn_skipn.
  - rewrite firstn_firstn. f_equal. lia.
Qed.

Lemma firstn_all_slice (l : bytes) (a : nat) :
  (a <= List.length l)%nat -> firstn a l ++ slice l a (List.length l) = l.
Proof.
  intros Ha. rewrite firstn_slice by exact Ha. apply firstn_all.
Qed.

Lemma returned_cons (b : bytes) vs :
  returned (Return b :: vs) = b ++ returned vs.
Proof. reflexivity. Qed.

Lemma stream_calls_cons chunk rest :
  stream_calls (chunk :: rest)
  = (host_ok, Compress (PyBytes chunk)) :: stream_calls rest.
Proof. reflexivity. Qed.

Lemma compress_calls_cons h data rest :
  compress_calls ((h, data) :: rest) = (h, Compress data) :: compress_calls rest.
Proof. reflexivity. Qed.



Section StreamProofs.
Context {zopfli : Zopfli}.

Lemma stream_extends_length o rest : forall chunk st,
  stream_extends o chunk rest st ->
  (List.length (snd st) <= List.length (snd (encode_stream o chunk rest st)))%nat.
Proof.
  induction rest as [|next rest IH]; intros chunk st H; cbn in *.
  - apply H.
  - destruct H as [[Hlen _] H]. specialize (IH _ _ H). lia.
Qed.

(** With an object pending, the rest of a session: each pending object is
    read by the call after its append and encoded then, once; what the
    calls return is what is still missing of the stream, all of it but
    the bytes already handed out, which are the buffer less its last
    byte. *)
Lemma session_pending_reads o rest : forall data self last chunk chunks,
  d_options self = o ->
  d_flushed self = false ->
  d_data self = Some data ->
  session_reads data rest last chunk chunks ->
  stream_extends o chunk chunks (d_bp self, d_out self) ->
  size_of (snd (encode_stream o chunk chunks (d_bp self, d_out self)))
    <= SSIZE_MAX ->
  let r := encode_stream o chunk chunks (d_bp self, d_out self) in
  let '(vs, self', log) :=
    session Deflater_call self (compress_calls rest ++ [(last, Flush)]) in
  all_return vs /\
  firstn (List.length (d_out self) - 1) (d_out self) ++ returned vs = snd r /\
  self' = mkDeflater o (fst r) (snd r) None true /\
  log = stream_log o chunk chunks (d_bp self, d_out self).
Proof.
  induction rest as [|[h next] rest IH];
    intros data self last chunk chunks Ho Hf Hd Hr Hx Hm;
    destruct chunks as [|c chunks]; cbn [session_reads] in Hr;
    try contradiction;
    cbn [stream_extends encode_stream stream_log] in Hx, Hm |- *.
  - (* only [flush()] is left *)
    destruct Hr as [Hg Ha]. destruct Hx as (Hlen & Hne & Hpre).
    unfold encode_chunk in *. cbn [fst snd] in *.
    assert (H1 : (1 <= List.length
                    (snd (ZopfliDeflatePart o 2 1 chunk 0 (size_of chunk)
                                            (d_bp self) (d_out self))))%nat).
    { destruct (snd (ZopfliDeflatePart o 2 1 chunk 0 (size_of chunk)
                                       (d_bp self) (d_out self)));
        [congruence | cbn; lia]. }
    cbn [compress_calls map app session Deflater_call].
    unfold Deflater_flush. rewrite Hf.
    set (self1 := mkDeflater _ _ _ _ true).
    assert (Hd1 : d_data self1 = Some data) by exact Hd.
    rewrite (deflate_part_reads last self1 1 data chunk Hd1 Hg Ha);
      subst self1; cbn [d_options d_bp d_out d_flushed]; rewrite ?Ho;
      try assumption.
    cbn [fst snd Z.eqb app]. split; [|split; [|split; reflexivity]].
    + constructor; [eexists; reflexivity | constructor].
    + rewrite returned_cons. cbn [returned flat_map]. rewrite app_nil_r.
      rewrite <- Hpre. apply firstn_all_slice. lia.
  - (* [compress(next)] reads and encodes the pending object *)
    destruct Hr as (Hg & Ha & Hr). destruct Hx as ((Hlen & Hne & Hpre) & Hx).
    pose proof (stream_extends_length _ _ _ _ Hx) as Hmono.
    unfold encode_chunk in *. cbn [fst snd] in *.
    set (r := ZopfliDeflatePart o 2 0 chunk 0 (size_of chunk)
                                (d_bp self) (d_out self)) in *.
    assert (H1 : (1 <= List.length (snd r))%nat).
    { destruct (snd r); [congruence | cbn; lia]. }
    assert (Hm1 : size_of (snd r) <= SSIZE_MAX).
    { unfold size_of in *. lia. }
    rewrite compress_calls_cons. cbn [app session Deflater_call].
    unfold Deflater_compress. rewrite Hf.
    rewrite (deflate_part_reads h self 0 data chunk Hd Hg Ha);
      rewrite ?Ho; fold r; try assumption.
    cbn [d_options d_bp d_out d_flushed Z.eqb].
    set (self' := mkDeflater o (fst r) (snd r) (Some next) (d_flushed self)).
    specialize (IH next self' last c chunks eq_refl Hf eq_refl Hr).
    cbn [d_bp d_out self'] in IH.
    replace (fst r, snd r) with r in IH by (destruct r; reflexivity).
    specialize (IH Hx Hm). cbv zeta in IH.
    destruct (session Deflater_call self' (compress_calls rest ++ [(last, Flush)]))
      as [[vs self2] logs].
    destruct IH as (Hall & Hcat & Hst & Hlog).
    split; [|split; [|split]].
    + constructor; [eexists; reflexivity | exact Hall].
    + rewrite returned_cons, app_assoc, <- Hpre.
      rewrite firstn_slice by lia. exact Hcat.
    + exact Hst.
    + cbn [app]. now rewrite Hlog.
Qed.

(** A session that starts on a new object. *)
Lemma session_reads_stream h args self first data rest last chunk chunks :
  Deflater_init h args = Return self ->
  session_reads data rest last chunk chunks ->
  stream_extends (d_options self) chunk chunks (0, []) ->
  size_of (snd (encode_stream (d_options self) chunk chunks (0, [])))
    <= SSIZE_MAX ->
  let r := encode_stream (d_options self) chunk chunks (0, []) in
  let '(vs, self', log) :=
    session Deflater_call self
            ((first, Compress data) :: compress_calls rest ++ [(last, Flush)]) in
  all_return vs /\
  returned vs = snd r /\
  self' = mkDeflater (d_options self) (fst r) (snd r) None true /\
  log = stream_log (d_options self) chunk chunks (0, []).
Proof.
  intros Hi Hr Hx Hm r.
  destruct (Deflater_init_new h args self Hi) as (Hbp & Hout & Hd & Hf).
  cbn [session Deflater_call].
  unfold Deflater_compress, deflate_part. rewrite Hf, Hd.
  set (self' := mkDeflater _ _ _ (Some data) _).
  pose proof (session_pending_reads (d_options self) rest data self' last
                chunk chunks eq_refl Hf eq_refl Hr) as IH.
  cbn [d_bp d_out self'] in IH. rewrite Hbp, Hout in IH.
  specialize (IH Hx Hm). cbv zeta in IH. fold r in IH.
  destruct (session Deflater_call self'
                    (compress_calls rest ++ [(last, Flush)]))
    as [[vs self2] logs].
  destruct IH as (Hall & Hcat & Hst & Hlog).
  split; [|split; [|split]]; try assumption.
  constructor; [eexists; reflexivity | exact Hall].
Qed.

End StreamProofs.




(** ** C3: the two trials of [ZopfliCompressor.flush] *)

Lemma PyBytes_FromStringAndSize_whole h (out : bytes) :
  h_alloc h = true -> size_of out <= SSIZE_MAX ->
  PyBytes_FromStringAndSize h out 0 (size_of out) = Return out.
Proof.
  intros Hh Hm.
  pose proof (PyBytes_FromStringAndSize_slice h out 0 (List.length out) Hh)
    as Hs.
  rewrite Nat.sub_0_r in Hs. unfold size_of at 1. cbn [Z.of_nat] in Hs.
  rewrite Hs by (auto; lia).
  unfold slice. now rewrite Nat.sub_0_r, firstn_all.
Qed.

Lemma try_both_abc_is_reached :
  Compressor_init host_ok (Some Examples.try_both_args)
  = Return (mkCompressor 2 (mkOptions 0 15 3 0 15) [] false) /\
  snd (Compressor_compress host_ok
         (mkCompressor 2 (mkOptions 0 15 3 0 15) [] false)
         (PyBytes [x61; x62; x63]))
  = Examples.try_both_abc.
Proof. split; reflexivity. Qed.

(** C3 (as amended).  With block-splitting mode 3, [flush()] on a
    compressor that is not finalized runs the encoder exactly twice over
    the whole accumulated buffer: first with block splitting 1 and
    last-block splitting 0, then with block splitting 1 and last-block
    splitting 1.  It returns the first result when that is strictly
    shorter and the second otherwise; when both have the same length the
    second one (last-block splitting enabled) is kept. *)
Theorem C3_try_both {zopfli : Zopfli} h self :
  c_flushed self = false ->
  blocksplitting (c_options self) = 3 ->
  h_io h = true -> h_view h = true -> h_alloc h = true ->
  let o := c_options self in
  let o1 := mkOptions (verbose o) (numiterations o) 1 0 (blocksplittingmax o) in
  let o2 := mkOptions (verbose o) (numiterations o) 1 1 (blocksplittingmax o) in
  let first := ZopfliCompress o1 (c_format self) (c_data self) in
  let second := ZopfliCompress o2 (c_format self) (c_data self) in
  size_of first <= SSIZE_MAX -> size_of second <= SSIZE_MAX ->
  snd (Compressor_flush h self)
  = [CallCompress o1 (c_format self) (c_data self);
     CallCompress o2 (c_format self) (c_data self)] /\
  ((List.length first < List.length second)%nat ->
   fst (fst (Compressor_flush h self)) = Return first) /\
  ((List.length second <= List.length first)%nat ->
   fst (fst (Compressor_flush h self)) = Return second) /\
  (List.length first = List.length second ->
   fst (fst (Compressor_flush h self)) = Return second) /\
  c_flushed (snd (fst (Compressor_flush h self))) = true.
Proof.
  intros Hf Hb Hio Hv Ha o o1 o2 first second Hm1 Hm2.
  unfold Compressor_flush. rewrite Hf, Hio, Hv, Hb. cbn [negb Z.eqb Pos.eqb].
  change (set_blocksplittinglast 0 (set_blocksplitting 1 (c_options self)))
    with o1.
  change (set_blocksplittinglast 1 o1) with o2.
  fold first second. cbn [fst snd Compressor_out c_flushed].
  assert (Hsecond : (List.length second <= List.length first)%nat ->
    PyBytes_FromStringAndSize h
      (if size_of first <? size_of second then first else second) 0
      (size_of (if size_of first <? size_of second then first else second))
    = Return second).
  { intros Hle. destruct (Z.ltb_spec (size_of first) (size_of second)) as [H|H].
    - unfold size_of in H. lia.
    - now apply PyBytes_FromStringAndSize_whole. }
  repeat split; auto.
  - intros Hlt. destruct (Z.ltb_spec (size_of first) (size_of second)) as [H|H].
    + now apply PyBytes_FromStringAndSize_whole.
    + unfold size_of in H. lia.
  - intros Heq. apply Hsecond. lia.
Qed.

(** On [b'abc'] the reference encoder writes thirteen bytes either way. *)
Lemma C3_try_both_witness :
  snd (Compressor_flush host_ok Examples.try_both_abc)
  = [CallCompress (mkOptions 0 15 1 0 15) 2 [x61; x62; x63];
     CallCompress (mkOptions 0 15 1 1 15) 2 [x61; x62; x63]] /\
  fst (fst (Compressor_flush host_ok Examples.try_both_abc))
  = Return [x00; x02; x00; xfd; xff; x61; x62;
            x01; x01; x00; xfe; xff; x63].
Proof.
  pose proof (C3_try_both host_ok Examples.try_both_abc) as H.
  cbv zeta in H.
  destruct H as (Hlog & _ & _ & Htie & _);
    try solve [reflexivity | vm_compute; discriminate].
  split; [exact Hlog | apply Htie; reflexivity].
Defined.

(** C3 (as stated) fails on a tie: the two results for [b'abc'] have the
    same length and differ, and [flush()] returns the second one. *)
Lemma C3_counterexample :
  let o1 := mkOptions 0 15 1 0 15 in
  let o2 := mkOptions 0 15 1 1 15 in
  let first := ZopfliCompress o1 2 [x61; x62; x63] in
  let second := ZopfliCompress o2 2 [x61; x62; x63] in
  List.length first = List.length second /\
  fst (fst (Compressor_flush host_ok Examples.try_both_abc)) = Return second /\
  fst (fst (Compressor_flush host_ok Examples.try_both_abc)) <> Return first.
Proof.
  vm_compute. repeat split. discriminate.
Qed.

(** ** Construction: C9, C4, C10, C5 *)

(** C9.  Constructing a [ZopfliCompressor] with a format that is none of
    gzip, zlib and raw deflate fails with [ValueError("unknown format")]:
    the constructor answers no object, whatever the other arguments and
    the host are. *)
Theorem C9_unknown_format {zopfli : Zopfli} h a format :
  ca_format a = Some format ->
  format <> ZOPFLI_FORMAT_GZIP ->
  format <> ZOPFLI_FORMAT_ZLIB ->
  format <> ZOPFLI_FORMAT_DEFLATE ->
  Compressor_init h (Some a) = Raise (ValueError "unknown format"%string) /\
  forall self, Compressor_init h (Some a) <> Return self.
Proof.
  intros Hfmt Hg Hz Hd.
  assert (E : Compressor_init h (Some a)
              = Raise (ValueError "unknown format"%string)).
  { unfold Compressor_init, known_format. rewrite Hfmt. cbn [parsed].
    destruct (Z.eqb_spec format ZOPFLI_FORMAT_GZIP); [contradiction|].
    destruct (Z.eqb_spec format ZOPFLI_FORMAT_ZLIB); [contradiction|].
    destruct (Z.eqb_spec format ZOPFLI_FORMAT_DEFLATE); [contradiction|].
    reflexivity. }
  split; [exact E | intros self; rewrite E; discriminate].
Qed.

(** [ZopfliCompressor(format=3)] *)
Lemma C9_unknown_format_witness :
  Compressor_init host_ok (Some (mkCompressorArgs (Some 3) 0 None None None))
  = Raise (ValueError "unknown format"%string) /\
  forall self,
    Compressor_init host_ok (Some (mkCompressorArgs (Some 3) 0 None None None))
    <> Return self.
Proof.
  apply (C9_unknown_format host_ok
           (mkCompressorArgs (Some 3) 0 None None None) 3);
    [reflexivity | vm_compute; discriminate ..].
Defined.

(** C4 (as amended).  With a block-splitting value that is negative or
    greater than 3, neither constructor fails on that account.  The
    compressor stores 1 in its place; the streaming encoder stores the
    value as supplied. *)
Theorem C4_out_of_range {zopfli : Zopfli} h ca da v :
  v < 0 \/ 3 < v ->
  ca_block_splitting ca = Some v ->
  da_block_splitting da = Some v ->
  known_format (parsed (ca_format ca) ZOPFLI_FORMAT_DEFLATE) = true ->
  0 <= ca_verbose ca -> 0 <= da_verbose da ->
  h_io h = true -> h_lock h = true ->
  (exists self, Compressor_init h (Some ca) = Return self /\
                blocksplitting (c_options self) = 1) /\
  (exists self, Deflater_init h (Some da) = Return self /\
                blocksplitting (d_options self) = v).
Proof.
  intros Hv Hca Hda Hfmt Hcv Hdv Hio Hlock. split.
  - unfold Compressor_init. rewrite Hfmt, Hca, Hio, Hlock.
    cbn [parsed negb verbose blocksplitting set_verbose set_blocksplitting
         set_blocksplittingmax set_numiterations].
    destruct (Z.ltb_spec (ca_verbose ca) 0); [lia|].
    destruct (Z.ltb_spec v 0), (Z.ltb_spec 3 v); cbn [orb]; try lia;
      eexists; split; reflexivity.
  - unfold Deflater_init. rewrite Hda, Hlock.
    cbn [parsed negb verbose blocksplitting set_verbose set_blocksplitting
         set_blocksplittingmax set_numiterations].
    destruct (Z.ltb_spec (da_verbose da) 0); [lia|].
    destruct (Z.eqb_spec v 2); [lia|].
    eexists; split; reflexivity.
Qed.

(** [block_splitting=7] *)
Lemma C4_out_of_range_witness :
  (exists self,
     Compressor_init host_ok (Some (mkCompressorArgs None 0 None (Some 7) None))
     = Return self /\ blocksplitting (c_options self) = 1) /\
  (exists self,
     Deflater_init host_ok (Some (mkDeflaterArgs 0 None (Some 7) None))
     = Return self /\ blocksplitting (d_options self) = 7).
Proof.
  apply (C4_out_of_range host_ok
           (mkCompressorArgs None 0 None (Some 7) None)
           (mkDeflaterArgs 0 None (Some 7) None) 7);
    solve [reflexivity | right; reflexivity | vm_compute; discriminate].
Defined.

(** C4 (as stated) fails for the streaming encoder:
    [ZopfliDeflater(block_splitting=7)] and
    [ZopfliDeflater(block_splitting=-1)] keep 7 and -1. *)
Lemma C4_counterexample :
  (exists self,
     Deflater_init host_ok (Some (mkDeflaterArgs 0 None (Some 7) None))
     = Return self /\ blocksplitting (d_options self) = 7 /\
     blocksplitting (d_options self) <> 1) /\
  (exists self,
     Deflater_init host_ok (Some (mkDeflaterArgs 0 None (Some (-1)) None))
     = Return self /\ blocksplitting (d_options self) = -1 /\
     blocksplitting (d_options self) <> 1).
Proof.
  split; eexists; (split; [reflexivity|]); split;
    [reflexivity | discriminate | reflexivity | discriminate].
Qed.

(** C10.  [ZopfliDeflater(block_splitting=2)] stores block splitting 1 and
    last-block splitting 1; any other supplied value, in range or not, is
    stored as it is, with last-block splitting as [ZopfliInitOptions] left
    it. *)
Theorem C10_deflater_block_splitting {zopfli : Zopfli} h a v self :
  da_block_splitting a = Some v ->
  Deflater_init h (Some a) = Return self ->
  (v = 2 -> blocksplitting (d_options self) = 1 /\
            blocksplittinglast (d_options self) = 1) /\
  (v <> 2 -> blocksplitting (d_options self) = v /\
             blocksplittinglast (d_options self)
             = blocksplittinglast ZopfliInitOptions).
Proof.
  intros Hv Hi. unfold Deflater_init in Hi. rewrite Hv in Hi.
  cbn [parsed verbose blocksplitting set_verbose set_blocksplitting
       set_blocksplittingmax set_numiterations] in Hi.
  destruct (_ <? 0); [discriminate|].
  destruct (negb (h_lock h)); [discriminate|].
  destruct (Z.eqb_spec v 2) as [E|E]; injection Hi as <-;
    split; intros E'; try contradiction; split; reflexivity.
Qed.

(** [block_splitting=2] and [block_splitting=-4] *)
Lemma C10_deflater_block_splitting_witness :
  let two := mkDeflater (mkOptions 0 15 1 1 15) 0 [] None false in
  let neg := mkDeflater (mkOptions 0 15 (-4) 0 15) 0 [] None false in
  Deflater_init host_ok (Some (mkDeflaterArgs 0 None (Some 2) None))
  = Return two /\
  Deflater_init host_ok (Some (mkDeflaterArgs 0 None (Some (-4)) None))
  = Return neg /\
  (blocksplitting (d_options two) = 1 /\
   blocksplittinglast (d_options two) = 1) /\
  (blocksplitting (d_options neg) = -4 /\
   blocksplittinglast (d_options neg) = blocksplittinglast ZopfliInitOptions).
Proof.
  split; [reflexivity|]. split; [reflexivity|]. split.
  - apply (C10_deflater_block_splitting host_ok
             (mkDeflaterArgs 0 None (Some 2) None) 2);
      reflexivity.
  - apply (C10_deflater_block_splitting host_ok
             (mkDeflaterArgs 0 None (Some (-4)) None) (-4));
      solve [reflexivity | discriminate].
Defined.

(** The options of a streaming encoder never change, and every encoder
    run of a session is given exactly them. *)
Section DeflaterOptions.
Context {zopfli : Zopfli}.

Lemma deflate_part_options h self final :
  d_options (snd (fst (deflate_part h self final))) = d_options self /\
  Forall (fun e => event_options e = d_options self)
         (snd (deflate_part h self final)).
Proof.
  unfold deflate_part. destruct (d_data self) as [data|]; cbn; auto.
  destruct (PyObject_GetBuffer h data) as [input|e|]; cbn; auto.
  destruct (ZopfliDeflatePart _ _ _ _ _ _ _ _) as [bp out].
  destruct (deflate_part_slice _ _ _) as [off n]. cbn. auto.
Qed.

Lemma Deflater_call_options h self c :
  d_options (snd (fst (Deflater_call h self c))) = d_options self /\
  Forall (fun e => event_options e = d_options self)
         (snd (Deflater_call h self c)).
Proof.
  destruct c as [data|]; cbn [Deflater_call].
  - unfold Deflater_compress. destruct (d_flushed self); cbn; auto.
    pose proof (deflate_part_options h self 0) as H.
    destruct (deflate_part h self 0) as [[v self'] log]. cbn in H.
    destruct v; cbn; exact H.
  - unfold Deflater_flush. destruct (d_flushed self); cbn; auto.
    apply (deflate_part_options h (mkDeflater _ _ _ _ true) 1).
Qed.

Lemma session_options calls : forall self,
  Forall (fun e => event_options e = d_options self)
         (snd (session Deflater_call self calls)).
Proof.
  induction calls as [|[h c] calls IH]; intros self; cbn [session].
  - constructor.
  - pose proof (Deflater_call_options h self c) as [Ho Hlog].
    destruct (Deflater_call h self c) as [[v self'] log]. cbn in Ho, Hlog.
    specialize (IH self'). rewrite Ho in IH.
    destruct (session Deflater_call self' calls) as [[vs self''] logs].
    cbn in *. apply Forall_app. split; assumption.
Qed.

End DeflaterOptions.

(** C5 (as amended).  [ZopfliDeflater(block_splitting=3)] stores the value
    3 as supplied and leaves last-block splitting as [ZopfliInitOptions]
    set it; every encoder run of the session, for a final block as for any
    other, is given these stored options.  (The value the constructor
    rewrites is 2, see C10.) *)
Theorem C5_deflater_mode_3 {zopfli : Zopfli} h a self calls :
  da_block_splitting a = Some 3 ->
  Deflater_init h (Some a) = Return self ->
  blocksplitting (d_options self) = 3 /\
  blocksplittinglast (d_options self) = blocksplittinglast ZopfliInitOptions /\
  Forall (fun e => event_options e = d_options self)
         (snd (session Deflater_call self calls)).
Proof.
  intros Hv Hi. split; [|split]; [| |apply session_options].
  all: unfold Deflater_init in Hi; rewrite Hv in Hi;
    cbn [parsed verbose blocksplitting set_verbose set_blocksplitting
         set_blocksplittingmax set_numiterations Z.eqb Pos.eqb] in Hi;
    destruct (_ <? 0); [discriminate|];
    destruct (negb (h_lock h)); [discriminate|];
    injection Hi as <-; reflexivity.
Qed.

(** [ZopfliDeflater(block_splitting=3)], two appends and [flush()]. *)
Lemma C5_deflater_mode_3_witness :
  let self := mkDeflater (mkOptions 0 15 3 0 15) 0 [] None false in
  blocksplitting (d_options self) = 3 /\
  blocksplittinglast (d_options self) = blocksplittinglast ZopfliInitOptions /\
  Forall (fun e => event_options e = d_options self)
         (snd (session Deflater_call self
                       (stream_calls [[x61; x62]; [x63; x64]]))).
Proof.
  apply (C5_deflater_mode_3 host_ok (mkDeflaterArgs 0 None (Some 3) None));
    reflexivity.
Defined.

(** C5 (as stated) fails: with the value 3 the stored options are the
    supplied ones, and the final block is encoded with block splitting 3
    (on), as the block before it. *)
Lemma C5_counterexample :
  let self := mkDeflater (mkOptions 0 15 3 0 15) 0 [] None false in
  Deflater_init host_ok (Some (mkDeflaterArgs 0 None (Some 3) None))
  = Return self /\
  d_options self = set_blocksplitting 3 ZopfliInitOptions /\
  map (fun e => (event_final e, blocksplitting (event_options e),
                 blocksplittinglast (event_options e)))
      (snd (session Deflater_call self
                    (stream_calls [[x61; x62]; [x63; x64]])))
  = [(Some 0, 3, 0); (Some 1, 3, 0)].
Proof.
  repeat split.
Qed.

(** ** After [flush()]: C7 *)

Section Finalized.
Context {zopfli : Zopfli}.

Lemma Compressor_out_flushed self :
  c_flushed self = true -> Compressor_out self = self.
Proof. destruct self; cbn; intros ->; reflexivity. Qed.

Lemma Compressor_flush_flushes h self :
  c_flushed (snd (fst (Compressor_flush h self))) = true.
Proof.
  unfold Compressor_flush.
  destruct (c_flushed self), (h_io h), (h_view h),
    (blocksplitting (c_options self) =? 3); reflexivity.
Qed.

Lemma deflate_part_flushed h self final :
  d_flushed (snd (fst (deflate_part h self final))) = d_flushed self.
Proof.
  unfold deflate_part. destruct (d_data self) as [data|]; cbn; auto.
  destruct (PyObject_GetBuffer h data) as [input|e|]; cbn; auto.
  destruct (ZopfliDeflatePart _ _ _ _ _ _ _ _) as [bp out].
  destruct (deflate_part_slice _ _ _) as [off n]. reflexivity.
Qed.

Lemma Deflater_flush_flushes h self :
  d_flushed (snd (fst (Deflater_flush h self))) = true.
Proof.
  unfold Deflater_flush.
  destruct (d_flushed self) eqn:Hf; [exact Hf|].
  apply (deflate_part_flushed h (mkDeflater _ _ _ _ true) 1).
Qed.

(** The exception a finalized object raises for a call. *)
Lemma Compressor_finalized_call h self c :
  c_flushed self = true ->
  Compressor_call h self c
  = (Raise (ValueError match c with
                       | Compress _ => "Compressor has been flushed"%string
                       | Flush => "repeated call to flush()"%string
                       end), self, []).
Proof.
  intros Hf. destruct c; cbn [Compressor_call];
    unfold Compressor_compress, Compressor_flush; rewrite Hf.
  - reflexivity.
  - now rewrite Compressor_out_flushed.
Qed.

Lemma Deflater_finalized_call h self c :
  d_flushed self = true ->
  Deflater_call h self c
  = (Raise (ValueError match c with
                       | Compress _ => "Deflater has been flushed"%string
                       | Flush => "repeated call to flush()"%string
                       end), self, []).
Proof.
  intros Hf. destruct c; cbn [Deflater_call];
    unfold Deflater_compress, Deflater_flush; rewrite Hf; reflexivity.
Qed.

Lemma Compressor_finalized_session calls : forall self,
  c_flushed self = true ->
  session Compressor_call self calls
  = (map (fun hc : Host * call =>
            Raise (ValueError
                     match snd hc with
                     | Compress _ => "Compressor has been flushed"%string
                     | Flush => "repeated call to flush()"%string
                     end)) calls, self, []).
Proof.
  induction calls as [|[h c] calls IH]; intros self Hf; cbn [session map].
  - reflexivity.
  - rewrite (Compressor_finalized_call h self c Hf), (IH self Hf).
    reflexivity.
Qed.

Lemma Deflater_finalized_session calls : forall self,
  d_flushed self = true ->
  session Deflater_call self calls
  = (map (fun hc : Host * call =>
            Raise (ValueError
                     match snd hc with
                     | Compress _ => "Deflater has been flushed"%string
                     | Flush => "repeated call to flush()"%string
                     end)) calls, self, []).
Proof.
  induction calls as [|[h c] calls IH]; intros self Hf; cbn [session map].
  - reflexivity.
  - rewrite (Deflater_finalized_call h self c Hf), (IH self Hf).
    reflexivity.
Qed.

End Finalized.

(** C7.  Once [flush()] has been called on an object of either type,
    whatever it answered, the object is finalized, and any further calls,
    in any number and order, all fail: [compress] with
    [ValueError("... has been flushed")], [flush] with
    [ValueError("repeated call to flush()")].  None of them runs the
    encoder and the object is after them as it was before. *)
Theorem C7_finalized_is_inert {zopfli : Zopfli} h calls :
  (forall self : Compressor,
     let finalized := snd (fst (Compressor_call h self Flush)) in
     c_flushed finalized = true /\
     session Compressor_call finalized calls
     = (map (fun hc : Host * call =>
               Raise (ValueError
                        match snd hc with
                        | Compress _ => "Compressor has been flushed"%string
                        | Flush => "repeated call to flush()"%string
                        end)) calls, finalized, [])) /\
  (forall self : Deflater,
     let finalized := snd (fst (Deflater_call h self Flush)) in
     d_flushed finalized = true /\
     session Deflater_call finalized calls
     = (map (fun hc : Host * call =>
               Raise (ValueError
                        match snd hc with
                        | Compress _ => "Deflater has been flushed"%string
                        | Flush => "repeated call to flush()"%string
                        end)) calls, finalized, [])).
Proof.
  split; intros self finalized.
  - assert (Hf : c_flushed finalized = true)
      by apply Compressor_flush_flushes.
    split; [exact Hf | now apply Compressor_finalized_session].
  - assert (Hf : d_flushed finalized = true)
      by apply Deflater_flush_flushes.
    split; [exact Hf | now apply Deflater_finalized_session].
Qed.

(** ** The first call: C8 *)

(** C8.  On a streaming encoder that is not finalized and has no chunk
    pending, [compress(data)] returns the empty byte string and records
    [data] as the pending chunk, and [flush()] returns the empty byte
    string; neither runs the encoder.  A new object is in that state. *)
Theorem C8_no_pending_chunk {zopfli : Zopfli} h self data :
  d_data self = None ->
  d_flushed self = false ->
  Deflater_compress h self data
  = (Return [],
     mkDeflater (d_options self) (d_bp self) (d_out self) (Some data) false,
     []) /\
  Deflater_flush h self
  = (Return [],
     mkDeflater (d_options self) (d_bp self) (d_out self) None true,
     []) /\
  forall h' args new, Deflater_init h' args = Return new ->
                      d_data new = None /\ d_flushed new = false.
Proof.
  intros Hd Hf. unfold Deflater_compress, Deflater_flush, deflate_part.
  rewrite Hf, Hd. cbn [d_data d_options d_bp d_out d_flushed].
  rewrite Hf. split; [reflexivity|]. split; [reflexivity|].
  intros h' args new Hi.
  destruct (Deflater_init_new h' args new Hi) as (_ & _ & Hd' & Hf').
  split; assumption.
Qed.

(** [ZopfliDeflater().compress(b'a')] and [ZopfliDeflater().flush()] *)
Lemma C8_no_pending_chunk_witness :
  Deflater_compress host_ok Examples.fresh (PyBytes [x61])
  = (Return [],
     mkDeflater (mkOptions 0 15 1 0 15) 0 [] (Some (PyBytes [x61])) false,
     []) /\
  Deflater_flush host_ok Examples.fresh
  = (Return [], mkDeflater (mkOptions 0 15 1 0 15) 0 [] None true, []).
Proof.
  destruct (C8_no_pending_chunk host_ok Examples.fresh (PyBytes [x61])
              eq_refl eq_refl) as (Hc & Hf & _).
  split; [exact Hc | exact Hf].
Defined.

(** ** Failing calls: C6 *)

Section Failing.
Context {zopfli : Zopfli}.

Lemma deflate_part_failing h self final :
  let '(v, self', log) := deflate_part h self final in
  raised v = true ->
  d_data self' = None /\
  (log = [] -> d_out self' = d_out self /\ d_bp self' = d_bp self).
Proof.
  unfold deflate_part. destruct (d_data self) as [data|].
  - destruct (PyObject_GetBuffer h data) as [input|e|].
    + destruct (ZopfliDeflatePart _ _ _ _ _ _ _ _) as [bp out].
      destruct (deflate_part_slice _ _ _) as [off n].
      intros _. split; [reflexivity | discriminate].
    + intros _. split; [reflexivity | intros _; split; reflexivity].
    + intros _. split; [reflexivity | intros _; split; reflexivity].
  - cbn. discriminate.
Qed.

End Failing.

(** C6 (as amended).  A call that fails answers the exception to its
    caller.  A call that fails because the object is already finalized
    leaves the object as it was, and so does a failing [compress] on the
    compressor.  A failing [flush] always leaves the object finalized,
    whether or not the encoder had run, and leaves the compressor's
    accumulated input as it was.  On the streaming encoder a failing call
    that did not run the encoder leaves the output buffer and the bit
    pointer as they were, a failing call on an object not yet finalized
    leaves no chunk pending, and a failing [compress] leaves the finalized
    flag as it was. *)
Theorem C6_failing_calls {zopfli : Zopfli} h c :
  (forall self : Compressor,
     raised (fst (fst (Compressor_call h self c))) = true ->
     let self' := snd (fst (Compressor_call h self c)) in
     c_data self' = c_data self /\
     (c_flushed self = true -> self' = self) /\
     match c with
     | Compress _ => self' = self
     | Flush => c_flushed self' = true
     end) /\
  (forall self : Deflater,
     raised (fst (fst (Deflater_call h self c))) = true ->
     let self' := snd (fst (Deflater_call h self c)) in
     let log := snd (Deflater_call h self c) in
     (d_flushed self = true -> self' = self) /\
     (log = [] -> d_out self' = d_out self /\ d_bp self' = d_bp self) /\
     (d_flushed self = false -> d_data self' = None) /\
     match c with
     | Compress _ => d_flushed self' = d_flushed self
     | Flush => d_flushed self' = true
     end).
Proof.
  split; intros self Hr self'.
  - (* ZopfliCompressor *)
    destruct (c_flushed self) eqn:Hf.
    + subst self'. rewrite (Compressor_finalized_call h self c Hf).
      cbn [fst snd]. repeat split. destruct c; [reflexivity | exact Hf].
    + subst self'. destruct c as [data|]; cbn [Compressor_call] in *.
      * unfold Compressor_compress in *. rewrite Hf in *.
        destruct data as [b|id|];
          [destruct (h_io h)
          |destruct (h_buffer h id); [destruct (h_io h)|]|]; cbn in *;
          try discriminate; repeat split; discriminate.
      * split; [|split; [discriminate | apply Compressor_flush_flushes]].
        unfold Compressor_flush. rewrite Hf.
        destruct (h_io h), (h_view h),
          (blocksplitting (c_options self) =? 3); reflexivity.
  - (* ZopfliDeflater *)
    intros log. destruct (d_flushed self) eqn:Hf.
    + subst self' log. rewrite (Deflater_finalized_call h self c Hf).
      cbn [fst snd]. split; [intros _; reflexivity|].
      split; [intros _; split; reflexivity|].
      split; [congruence|]. destruct c; exact Hf.
    + subst self' log. destruct c as [data|]; cbn [Deflater_call] in *.
      * unfold Deflater_compress in *. rewrite Hf in *.
        pose proof (deflate_part_failing h self 0) as Hp.
        pose proof (deflate_part_flushed h self 0) as Hfl.
        destruct (deflate_part h self 0) as [[v self1] log1].
        destruct v; cbn in Hr; try discriminate. cbn [fst snd] in *.
        destruct (Hp eq_refl) as [Hd Hlog].
        split; [discriminate|]. split; [exact Hlog|].
        split; [intros _; exact Hd | congruence].
      * unfold Deflater_flush in *. rewrite Hf in *.
        set (self0 := mkDeflater _ _ _ _ true) in *.
        pose proof (deflate_part_failing h self0 1) as Hp.
        pose proof (deflate_part_flushed h self0 1) as Hfl.
        destruct (deflate_part h self0 1) as [[v self1] log1].
        cbn [fst snd] in *. destruct (Hp Hr) as [Hd Hlog].
        split; [discriminate|]. split; [exact Hlog|].
        split; [intros _; exact Hd | exact Hfl].
Qed.

(** [ZopfliDeflater()], [compress(1)], [flush()]: the [flush] raises
    [TypeError] before the encoder is reached. *)
Lemma C6_failing_calls_witness :
  let self := Examples.pending_opaque in
  let self' := snd (fst (Deflater_call host_ok self Flush)) in
  fst (fst (Deflater_call host_ok self Flush)) = Raise TypeError /\
  d_out self' = d_out self /\ d_bp self' = d_bp self /\
  d_data self' = None /\ d_flushed self' = true.
Proof.
  destruct (C6_failing_calls host_ok Flush) as [_ H].
  destruct (H Examples.pending_opaque eq_refl) as (_ & Hlog & Hd & Hf).
  destruct (Hlog eq_refl) as [Hout Hbp].
  split; [reflexivity|]. split; [exact Hout|]. split; [exact Hbp|].
  split; [exact (Hd eq_refl) | exact Hf].
Defined.

(** C6 (as stated) fails: the [flush] above raises without the encoder
    having run at all, and yet the object goes from not finalized to
    finalized and loses its pending chunk. *)
Lemma C6_counterexample :
  let self := Examples.pending_opaque in
  snd (fst (session Deflater_call Examples.fresh
                    [(host_ok, Compress PyOpaque)])) = self /\
  fst (fst (Deflater_call host_ok self Flush)) = Raise TypeError /\
  snd (Deflater_call host_ok self Flush) = [] /\
  d_flushed self = false /\
  d_flushed (snd (fst (Deflater_call host_ok self Flush))) = true /\
  snd (fst (Deflater_call host_ok self Flush)) <> self.
Proof.
  repeat split. discriminate.
Qed.

(** * Further properties of the module *)

(** ** ZopfliCompressor: sessions *)

Section CompressorSessions.
Context {zopfli : Zopfli}.

(** Appends only add to the accumulated input. *)
Lemma Compressor_appends chunks : forall self,
  c_flushed self = false ->
  session Compressor_call self (appends chunks)
  = (map (fun _ => Return []) chunks,
     mkCompressor (c_format self) (c_options self)
                  (c_data self ++ List.concat chunks) false,
     []).
Proof.
  induction chunks as [|chunk chunks IH]; intros self Hf.
  - cbn. rewrite app_nil_r. destruct self; cbn in *; subst; reflexivity.
  - cbn [appends map session Compressor_call].
    unfold Compressor_compress. rewrite Hf. cbn [h_io host_ok negb].
    fold (appends chunks). rewrite IH by reflexivity.
    cbn [c_format c_options c_data List.concat]. now rewrite app_assoc.
Qed.

Lemma session_app {S : Type}
    (step : Host -> S -> call -> result bytes * S * list event) calls1 :
  forall self calls2,
  session step self (calls1 ++ calls2)
  = let '(vs1, self1, log1) := session step self calls1 in
    let '(vs2, self2, log2) := session step self1 calls2 in
    (vs1 ++ vs2, self2, log1 ++ log2).
Proof.
  induction calls1 as [|[h c] calls1 IH]; intros self calls2; cbn [app session].
  - destruct (session step self calls2) as [[vs2 self2] log2]. reflexivity.
  - destruct (step h self c) as [[v self'] log]. rewrite IH.
    destruct (session step self' calls1) as [[vs1 self1] log1].
    destruct (session step self1 calls2) as [[vs2 self2] log2].
    cbn. now rewrite app_assoc.
Qed.

(** A whole session is its appends, then one [flush()] of what they
    accumulated. *)
Lemma Compressor_stream chunks self :
  c_flushed self = false ->
  session Compressor_call self (stream_calls chunks)
  = let '(v, self', log) :=
      Compressor_flush host_ok
        (mkCompressor (c_format self) (c_options self)
                      (c_data self ++ List.concat chunks) false) in
    (map (fun _ => Return []) chunks ++ [v], self', log).
Proof.
  intros Hf. unfold stream_calls. rewrite session_app.
  rewrite (Compressor_appends chunks self Hf).
  cbn [session Compressor_call].
  destruct (Compressor_flush host_ok _) as [[v self'] log].
  now rewrite app_nil_r.
Qed.

End CompressorSessions.

(** X1.  On a compressor that is not finalized and whose block-splitting
    mode is not 3, a session of appends followed by [flush()] answers
    [b''] to every append and, to the [flush], what [ZopfliCompress] makes
    of the stored options, the format and all the input accumulated so
    far, in order; the encoder runs exactly once in the whole session. *)
Theorem Compressor_session_single {zopfli : Zopfli} self chunks :
  c_flushed self = false ->
  blocksplitting (c_options self) <> 3 ->
  let input := c_data self ++ List.concat chunks in
  let out := ZopfliCompress (c_options self) (c_format self) input in
  size_of out <= SSIZE_MAX ->
  session Compressor_call self (stream_calls chunks)
  = (map (fun _ => Return []) chunks ++ [Return out],
     mkCompressor (c_format self) (c_options self) input true,
     [CallCompress (c_options self) (c_format self) input]).
Proof.
  intros Hf Hb input out Hm. rewrite (Compressor_stream chunks self Hf).
  fold input. unfold Compressor_flush.
  cbn [c_flushed c_options c_format c_data host_ok h_io h_view negb].
  destruct (Z.eqb_spec (blocksplitting (c_options self)) 3); [contradiction|].
  fold out. rewrite PyBytes_FromStringAndSize_whole by auto. reflexivity.
Qed.

(** [compress(b'c')], [compress(b'')], [compress(b'de')], [flush()] *)
Lemma Compressor_session_single_witness :
  session Compressor_call Examples.compressor_ab
          (stream_calls [[x63]; []; [x64; x65]])
  = ([Return []; Return []; Return [];
      Return (ZopfliCompress (mkOptions 0 15 1 0 15) 2
                             [x61; x62; x63; x64; x65])],
     mkCompressor 2 (mkOptions 0 15 1 0 15) [x61; x62; x63; x64; x65] true,
     [CallCompress (mkOptions 0 15 1 0 15) 2 [x61; x62; x63; x64; x65]]).
Proof.
  apply (Compressor_session_single Examples.compressor_ab
           [[x63]; []; [x64; x65]]);
    [reflexivity | discriminate | vm_compute; discriminate].
Defined.

(** X2.  What a compressor session produces depends on the appended bytes
    only, not on how they were cut into chunks: two sessions on the same
    object whose chunks join to the same bytes get the same answer from
    [flush()], the same encoder runs and the same final object. *)
Theorem Compressor_chunking_invariant {zopfli : Zopfli} self chunks1 chunks2 :
  c_flushed self = false ->
  List.concat chunks1 = List.concat chunks2 ->
  let run chunks := session Compressor_call self (stream_calls chunks) in
  last (fst (fst (run chunks1))) Undefined
  = last (fst (fst (run chunks2))) Undefined /\
  snd (fst (run chunks1)) = snd (fst (run chunks2)) /\
  snd (run chunks1) = snd (run chunks2).
Proof.
  intros Hf Hcat run. subst run. cbv beta.
  rewrite !(Compressor_stream _ self Hf), Hcat.
  destruct (Compressor_flush host_ok _) as [[v self'] log].
  cbn [fst snd]. now rewrite !last_last.
Qed.

(** [b'ab' + b'c'] and [b'a' + b'' + b'bc'] in try-both mode *)
Lemma Compressor_chunking_invariant_witness :
  let self := mkCompressor 2 (mkOptions 0 15 3 0 15) [] false in
  let run chunks := session Compressor_call self (stream_calls chunks) in
  last (fst (fst (run [[x61; x62]; [x63]]))) Undefined
  = last (fst (fst (run [[x61]; []; [x62; x63]]))) Undefined /\
  snd (fst (run [[x61; x62]; [x63]])) = snd (fst (run [[x61]; []; [x62; x63]])) /\
  snd (run [[x61; x62]; [x63]]) = snd (run [[x61]; []; [x62; x63]]).
Proof.
  apply (Compressor_chunking_invariant
           (mkCompressor 2 (mkOptions 0 15 3 0 15) [] false)
           [[x61; x62]; [x63]] [[x61]; []; [x62; x63]]);
    reflexivity.
Defined.

(** X3.  In try-both mode [flush()] returns one of the two encodings, and
    its length is the smaller of the two lengths. *)
Theorem Compressor_try_both_shortest {zopfli : Zopfli} h self :
  c_flushed self = false ->
  blocksplitting (c_options self) = 3 ->
  h_io h = true -> h_view h = true -> h_alloc h = true ->
  let o := c_options self in
  let first := ZopfliCompress (set_blocksplittinglast 0 (set_blocksplitting 1 o))
                              (c_format self) (c_data self) in
  let second := ZopfliCompress (set_blocksplittinglast 1 (set_blocksplitting 1 o))
                               (c_format self) (c_data self) in
  size_of first <= SSIZE_MAX -> size_of second <= SSIZE_MAX ->
  exists out,
    fst (fst (Compressor_flush h self)) = Return out /\
    (out = first \/ out = second) /\
    List.length out = Nat.min (List.length first) (List.length second).
Proof.
  intros Hf Hb Hio Hv Ha o first second Hm1 Hm2.
  unfold Compressor_flush. rewrite Hf, Hio, Hv, Hb. cbn [negb Z.eqb Pos.eqb].
  change (ZopfliCompress
            (set_blocksplittinglast 0 (set_blocksplitting 1 (c_options self)))
            (c_format self) (c_data self)) with first.
  change (ZopfliCompress
            (set_blocksplittinglast 1
               (set_blocksplittinglast 0
                  (set_blocksplitting 1 (c_options self))))
            (c_format self) (c_data self)) with second.
  cbn [fst]. destruct (Z.ltb_spec (size_of first) (size_of second)) as [H|H];
    unfold size_of in H.
  - exists first. rewrite PyBytes_FromStringAndSize_whole by auto.
    repeat split; auto. lia.
  - exists second. rewrite PyBytes_FromStringAndSize_whole by auto.
    repeat split; auto. lia.
Qed.

Lemma Compressor_try_both_shortest_witness :
  exists out,
    fst (fst (Compressor_flush host_ok Examples.try_both_abc)) = Return out /\
    (out = ZopfliCompress (mkOptions 0 15 1 0 15) 2 [x61; x62; x63] \/
     out = ZopfliCompress (mkOptions 0 15 1 1 15) 2 [x61; x62; x63]) /\
    List.length out = 13%nat.
Proof.
  pose proof (Compressor_try_both_shortest host_ok Examples.try_both_abc) as H.
  cbv zeta in H. apply H; solve [reflexivity | vm_compute; discriminate].
Defined.

Section CompressorInvariant.
Context {zopfli : Zopfli}.

Lemma Compressor_init_valid h args self :
  Compressor_init h args = Return self ->
  Compressor_valid self /\ c_data self = [] /\ c_flushed self = false.
Proof.
  unfold Compressor_init, Compressor_valid.
  destruct args as [a|]; [|discriminate].
  destruct (known_format _) eqn:Hk; cbn [negb]; [|discriminate].
  destruct (_ <? 0); [discriminate|].
  destruct (negb (h_io h)); [discriminate|].
  destruct (negb (h_lock h)); [discriminate|].
  intros Hi. injection Hi as <-. cbn [c_format c_options c_data c_flushed].
  split; [split; [exact Hk|] | split; reflexivity].
  cbn [verbose numiterations blocksplitting blocksplittinglast
       blocksplittingmax set_verbose set_numiterations set_blocksplitting
       set_blocksplittingmax].
  match goal with
  | |- context [(?x <? 0) || (3 <? ?x)] =>
    destruct (Z.ltb_spec x 0), (Z.ltb_spec 3 x)
  end; cbn [orb blocksplitting set_blocksplitting set_verbose
            set_blocksplittingmax]; lia.
Qed.

Lemma Compressor_call_valid h self c :
  Compressor_valid self ->
  let '(v, self', log) := Compressor_call h self c in
  Compressor_valid self' /\ c_format self' = c_format self /\
  Forall (Compressor_event (c_format self)) log /\
  (List.length log <= 2)%nat /\
  (c_flushed self = false -> c_flushed self' = false -> log = []).
Proof.
  intros [Hk Hb]. destruct c as [data|]; cbn [Compressor_call].
  - unfold Compressor_compress.
    destruct (c_flushed self);
      [|destruct data as [b|id|];
        [destruct (negb (h_io h))
        |destruct (h_buffer h id); [destruct (negb (h_io h))|]|]];
      unfold Compressor_valid; cbn; repeat split; auto; try lia;
      intros; congruence.
  - unfold Compressor_flush, Compressor_valid, Compressor_event.
    destruct (c_flushed self); [|destruct (negb (h_io h));
                                   [|destruct (negb (h_view h))]];
      cbn [Compressor_out c_format c_options c_flushed fst snd List.length];
      try (repeat split; auto; try lia; discriminate).
    destruct (Z.eqb_spec (blocksplitting (c_options self)) 3) as [E|E];
      cbn [Compressor_out c_format c_options c_flushed fst snd List.length
           blocksplitting set_blocksplitting set_blocksplittinglast];
      (split; [split; [exact Hk | lia]|]); (split; [reflexivity|]);
      (split; [|split; [lia | discriminate]]).
    + repeat constructor;
        solve [eexists; reflexivity | cbn; lia].
    + repeat constructor;
        solve [eexists; reflexivity | cbn; lia].
Qed.

Lemma Compressor_session_valid calls : forall self,
  Compressor_valid self ->
  let '(vs, self', log) := session Compressor_call self calls in
  Compressor_valid self' /\ c_format self' = c_format self /\
  Forall (Compressor_event (c_format self)) log /\
  (List.length log <= 2)%nat.
Proof.
  induction calls as [|[h c] calls IH]; intros self Hv.
  - cbn. repeat split; auto; apply Hv.
  - destruct (c_flushed self) eqn:Hf.
    + (* finalized from the start: nothing runs *)
      rewrite (Compressor_finalized_session _ self Hf).
      repeat split; auto; apply Hv.
    + cbn [session].
      pose proof (Compressor_call_valid h self c Hv) as Hstep.
      destruct (Compressor_call h self c) as [[v self1] log1].
      destruct Hstep as (Hv1 & Hfmt1 & Hev1 & Hlen1 & Hlog1).
      destruct (c_flushed self1) eqn:Hf1.
      * (* finalized by this call: the rest runs nothing *)
        rewrite (Compressor_finalized_session calls self1 Hf1).
        rewrite app_nil_r. auto.
      * rewrite (Hlog1 Hf eq_refl). cbn [app].
        specialize (IH self1 Hv1).
        destruct (session Compressor_call self1 calls) as [[vs self2] log2].
        destruct IH as (Hv2 & Hfmt2 & Hev2 & Hlen2).
        rewrite Hfmt1 in *. repeat split; auto; apply Hv2.
Qed.

End CompressorInvariant.

(** X4.  Whatever calls are made on a constructed compressor, and whatever
    fails on the way: its format stays the known format it was given, its
    block-splitting mode stays within 0..3, the encoder runs at most
    twice, and each run is a [ZopfliCompress] for that format with block
    splitting 0, 1 or 2; the encoder is never handed the mode 3 nor an
    out-of-range value. *)
Theorem Compressor_session_invariant {zopfli : Zopfli} h args self calls :
  Compressor_init h args = Return self ->
  let '(vs, self', log) := session Compressor_call self calls in
  known_format (c_format self') = true /\
  c_format self' = c_format self /\
  0 <= blocksplitting (c_options self') <= 3 /\
  (List.length log <= 2)%nat /\
  Forall (fun e =>
            (exists input, e = CallCompress (event_options e)
                                            (c_format self) input) /\
            0 <= blocksplitting (event_options e) <= 2) log.
Proof.
  intros Hi. destruct (Compressor_init_valid h args self Hi) as (Hv & _ & _).
  pose proof (Compressor_session_valid calls self Hv) as H.
  destruct (session Compressor_call self calls) as [[vs self'] log].
  destruct H as ((Hk & Hb) & Hfmt & Hev & Hlen). auto.
Qed.

(** [ZopfliCompressor(block_splitting=3)]: append, a failing append, two
    [flush()] and an append after them. *)
Lemma Compressor_session_invariant_witness :
  let self := mkCompressor 2 (mkOptions 0 15 3 0 15) [] false in
  let '(vs, self', log) :=
    session Compressor_call self
      [(host_ok, Compress (PyBytes [x61; x62; x63]));
       (host_ok, Compress PyOpaque);
       (host_ok, Flush); (host_ok, Flush);
       (host_ok, Compress (PyBytes [x64]))] in
  known_format (c_format self') = true /\
  c_format self' = c_format self /\
  0 <= blocksplitting (c_options self') <= 3 /\
  (List.length log <= 2)%nat /\
  Forall (fun e =>
            (exists input, e = CallCompress (event_options e)
                                            (c_format self) input) /\
            0 <= blocksplitting (event_options e) <= 2) log.
Proof.
  exact (Compressor_session_invariant host_ok (Some Examples.try_both_args)
           (mkCompressor 2 (mkOptions 0 15 3 0 15) [] false)
           [(host_ok, Compress (PyBytes [x61; x62; x63]));
            (host_ok, Compress PyOpaque);
            (host_ok, Flush); (host_ok, Flush);
            (host_ok, Compress (PyBytes [x64]))]
           eq_refl).
Defined.

(** ** ZopfliDeflater: sessions *)

Section DeflaterSessions.
Context {zopfli : Zopfli}.

(** One call on an object that is not finalized: either the encoder does
    not run and the bit pointer and buffer stay, or it runs once, on the
    pending chunk, and they become what it left. *)
Lemma Deflater_call_effect h self c :
  d_flushed self = false ->
  let '(v, self', log) := Deflater_call h self c in
  d_options self' = d_options self /\
  d_flushed self' = match c with Flush => true | Compress _ => false end /\
  ((log = [] /\ d_bp self' = d_bp self /\ d_out self' = d_out self) \/
   (exists data input,
      d_data self = Some data /\ PyObject_GetBuffer h data = Return input /\
      log = [CallDeflatePart (d_options self) 2 (call_final c) input 0
                             (size_of input) (d_bp self) (d_out self)] /\
      (d_bp self', d_out self')
      = encode_chunk (d_options self) (call_final c) input
                     (d_bp self, d_out self))).
Proof.
  intros Hf.
  assert (Hpart : forall final flag,
    let self0 := mkDeflater (d_options self) (d_bp self) (d_out self)
                            (d_data self) flag in
    let '(v, self', log) := deflate_part h self0 final in
    d_options self' = d_options self /\ d_flushed self' = flag /\
    ((log = [] /\ d_bp self' = d_bp self /\ d_out self' = d_out self) \/
     (exists data input,
        d_data self = Some data /\ PyObject_GetBuffer h data = Return input /\
        log = [CallDeflatePart (d_options self) 2 final input 0
                               (size_of input) (d_bp self) (d_out self)] /\
        (d_bp self', d_out self')
        = encode_chunk (d_options self) final input
                       (d_bp self, d_out self)))).
  { intros final flag. cbv zeta. unfold deflate_part. cbn [d_data].
    destruct (d_data self) as [data|];
      try (cbn; repeat split; auto; fail).
    destruct (PyObject_GetBuffer h data) as [input|e|] eqn:Hg;
      try (cbn; repeat split; auto; fail).
    cbn [d_options d_bp d_out d_flushed]. unfold encode_chunk. cbn [fst snd].
    destruct (ZopfliDeflatePart _ _ _ _ _ _ _ _) as [bp out] eqn:Er.
    destruct (deflate_part_slice _ _ _) as [off n].
    cbn. split; [reflexivity|]. split; [reflexivity|]. right.
    exists data, input. repeat split; auto. }
  destruct c as [data|]; cbn [Deflater_call call_final].
  - unfold Deflater_compress. rewrite Hf.
    specialize (Hpart 0 false). cbv zeta in Hpart.
    replace (mkDeflater (d_options self) (d_bp self) (d_out self)
                        (d_data self) false) with self in Hpart
      by (destruct self; cbn in *; subst; reflexivity).
    destruct (deflate_part h self 0) as [[v self'] log].
    destruct v; cbn [d_options d_bp d_out d_flushed]; exact Hpart.
  - unfold Deflater_flush. rewrite Hf. apply (Hpart 1 true).
Qed.

End DeflaterSessions.

(** X5.  Whatever calls are made on a streaming encoder, and whatever
    fails on the way: the encoder runs form one chain.  Each run is a
    [ZopfliDeflatePart] with the object's options, block type 2 and the
    whole of a chunk, it starts from the bit pointer and buffer the run
    before it left, a run for a final block is the last run of the
    session, and the object ends with the bit pointer and buffer of the
    last run. *)
Theorem Deflater_session_chain {zopfli : Zopfli} self calls :
  let '(vs, self', log) := session Deflater_call self calls in
  Deflater_log (d_options self) (d_bp self, d_out self) log /\
  (d_bp self', d_out self') = replay (d_bp self, d_out self) log /\
  d_options self' = d_options self.
Proof.
  revert self. induction calls as [|[h c] calls IH]; intros self.
  - cbn. auto.
  - destruct (d_flushed self) eqn:Hf.
    + rewrite (Deflater_finalized_session _ self Hf). cbn. auto.
    + cbn [session].
      pose proof (Deflater_call_effect h self c Hf) as Hstep.
      destruct (Deflater_call h self c) as [[v self1] log1].
      destruct Hstep as (Ho1 & Hf1 & Hrun).
      assert (Hrest :
        let '(vs, self', log) := session Deflater_call self1 calls in
        Deflater_log (d_options self) (d_bp self1, d_out self1) log /\
        (d_bp self', d_out self') = replay (d_bp self1, d_out self1) log /\
        d_options self' = d_options self /\
        (c = Flush -> log = [])).
      { destruct c as [data|].
        - specialize (IH self1).
          destruct (session Deflater_call self1 calls) as [[vs self2] log2].
          rewrite Ho1 in IH. destruct IH as (H1 & H2 & H3).
          repeat split; auto. discriminate.
        - rewrite (Deflater_finalized_session calls self1 Hf1).
          cbn. rewrite Ho1. auto. }
      destruct (session Deflater_call self1 calls) as [[vs self2] log2].
      destruct Hrest as (Hlog2 & Hst2 & Ho2 & Hlast).
      destruct Hrun
        as [(-> & Hbp & Hout) | (data & input & Hd & Hg & -> & Hst1)].
      * cbn [app]. rewrite Hbp, Hout in *. auto.
      * cbn [app Deflater_log replay fst snd].
        unfold encode_chunk in *. cbn [fst snd] in *.
        rewrite Hst1 in Hlog2, Hst2. repeat split; auto.
        exists (call_final c), input. split; [reflexivity|].
        split; [|exact Hlog2].
        destruct c; cbn [call_final]; [left; reflexivity|].
        right. split; [reflexivity | now apply Hlast].
Qed.


(** X6.  A streaming encoder does not look at what [compress] is given
    until the next call: an object without a buffer is accepted, the call
    after it raises [TypeError] without running the encoder and, if it is
    a [compress], drops its own argument as well, so that a [flush()]
    after it has nothing to encode and returns [b'']. *)
Theorem Deflater_late_TypeError {zopfli : Zopfli} h1 h2 h3 self data :
  d_flushed self = false ->
  d_data self = None ->
  session Deflater_call self
          [(h1, Compress PyOpaque); (h2, Compress data); (h3, Flush)]
  = ([Return []; Raise TypeError; Return []],
     mkDeflater (d_options self) (d_bp self) (d_out self) None true,
     []).
Proof.
  intros Hf Hd. cbn [session Deflater_call].
  unfold Deflater_compress, Deflater_flush, deflate_part, deflate_part_out.
  rewrite Hf, Hd. cbn. rewrite Hf. reflexivity.
Qed.

(** [ZopfliDeflater()], [compress(1)], [compress(b'abc')], [flush()] *)
Lemma Deflater_late_TypeError_witness :
  session Deflater_call Examples.fresh
          [(host_ok, Compress PyOpaque);
           (host_ok, Compress (PyBytes [x61; x62; x63]));
           (host_ok, Flush)]
  = ([Return []; Raise TypeError; Return []],
     mkDeflater (mkOptions 0 15 1 0 15) 0 [] None true,
     []).
Proof.
  exact (Deflater_late_TypeError host_ok host_ok host_ok Examples.fresh
           (PyBytes [x61; x62; x63]) eq_refl eq_refl).
Defined.

Lemma last_cons {A : Type} (l : list A) : forall next first,
  last (next :: l) first = last l next.
Proof.
  induction l as [|b l IH]; intros next first; [reflexivity|].
  change (last (next :: b :: l) first) with (last (b :: l) first).
  rewrite !IH. reflexivity.
Qed.

Section DeflaterStreams.
Context {zopfli : Zopfli}.

Lemma blocks_extend_length o chunks : forall st,
  blocks_extend o chunks st ->
  (List.length (snd st) <= List.length (snd (encode_blocks o chunks st)))%nat.
Proof.
  induction chunks as [|chunk chunks IH]; intros st H; cbn in *.
  - lia.
  - destruct H as [[Hlen _] H]. specialize (IH _ H). lia.
Qed.

(** With an object pending, appends alone: every object but the newest
    has been read and encoded, the newest is pending, and what was
    returned is the buffer less its last byte. *)
Lemma appends_pending o rest : forall data self chunks,
  d_options self = o ->
  d_flushed self = false ->
  d_data self = Some data ->
  appends_read data rest chunks ->
  blocks_extend o chunks (d_bp self, d_out self) ->
  size_of (snd (encode_blocks o chunks (d_bp self, d_out self)))
    <= SSIZE_MAX ->
  let r := encode_blocks o chunks (d_bp self, d_out self) in
  let '(vs, self', log) := session Deflater_call self (compress_calls rest) in
  all_return vs /\
  firstn (List.length (d_out self) - 1) (d_out self) ++ returned vs
  = firstn (List.length (snd r) - 1) (snd r) /\
  self' = mkDeflater o (fst r) (snd r)
                     (Some (last (map snd rest) data)) false /\
  List.length log = List.length rest.
Proof.
  induction rest as [|[h next] rest IH]; intros data self chunks Ho Hf Hd Hr Hx Hm;
    destruct chunks as [|chunk chunks]; cbn [appends_read] in Hr;
    try contradiction;
    cbn [blocks_extend encode_blocks] in Hx, Hm |- *.
  - cbn. rewrite app_nil_r. repeat split; [constructor|].
    destruct self; cbn in *; subst; reflexivity.
  - destruct Hr as (Hg & Ha & Hr). destruct Hx as ((Hlen & Hne & Hpre) & Hx).
    pose proof (blocks_extend_length _ _ _ Hx) as Hmono.
    unfold encode_chunk in *. cbn [fst snd] in *.
    set (r := ZopfliDeflatePart o 2 0 chunk 0 (size_of chunk)
                                (d_bp self) (d_out self)) in *.
    assert (H1 : (1 <= List.length (snd r))%nat).
    { destruct (snd r); [congruence | cbn; lia]. }
    assert (Hm1 : size_of (snd r) <= SSIZE_MAX).
    { unfold size_of in *. lia. }
    rewrite compress_calls_cons. cbn [session Deflater_call].
    unfold Deflater_compress. rewrite Hf.
    rewrite (deflate_part_reads h self 0 data chunk Hd Hg Ha);
      rewrite ?Ho; fold r; try assumption.
    cbn [d_options d_bp d_out d_flushed Z.eqb].
    set (self' := mkDeflater o (fst r) (snd r) (Some next) (d_flushed self)).
    specialize (IH next self' chunks eq_refl Hf eq_refl Hr).
    cbn [d_bp d_out self'] in IH.
    replace (fst r, snd r) with r in IH by (destruct r; reflexivity).
    specialize (IH Hx Hm). cbv zeta in IH.
    destruct (session Deflater_call self' (compress_calls rest))
      as [[vs self2] logs].
    destruct IH as (Hall & Hcat & Hst & Hlog).
    split; [constructor; [eexists; reflexivity | exact Hall]|].
    split; [|split].
    + rewrite returned_cons, app_assoc, <- Hpre.
      rewrite firstn_slice by lia. exact Hcat.
    + rewrite Hst. cbn [map snd]. now rewrite last_cons.
    + cbn. now rewrite Hlog.
Qed.

End DeflaterStreams.

(** X7.  In a session of one or more appends and a [flush()] on a new
    streaming encoder whose encoder runs extend the buffer, every
    appended object is read and encoded exactly once, in the order
    appended, by the call that follows its append and with what it holds
    then: the encoder runs are those of the chunks read, one after the
    other, the last as the final block, and the object ends finalized,
    with nothing pending, holding the bit pointer and buffer of the last
    run. *)
Theorem Deflater_session_runs {zopfli : Zopfli}
    h args self first data rest last chunk chunks :
  Deflater_init h args = Return self ->
  session_reads data rest last chunk chunks ->
  stream_extends (d_options self) chunk chunks (0, []) ->
  size_of (snd (encode_stream (d_options self) chunk chunks (0, [])))
    <= SSIZE_MAX ->
  let r := encode_stream (d_options self) chunk chunks (0, []) in
  let calls :=
    (first, Compress data) :: compress_calls rest ++ [(last, Flush)] in
  snd (session Deflater_call self calls)
  = stream_log (d_options self) chunk chunks (0, []) /\
  snd (fst (session Deflater_call self calls))
  = mkDeflater (d_options self) (fst r) (snd r) None true.
Proof.
  intros Hi Hr Hx Hm r calls. subst calls.
  pose proof (session_reads_stream h args self first data rest last
                chunk chunks Hi Hr Hx Hm) as H.
  cbv zeta in H. fold r in H.
  destruct (session Deflater_call self _) as [[vs self'] log].
  cbn [fst snd]. destruct H as (_ & _ & Hst & Hlog). split; assumption.
Qed.

(** A [bytearray] holding [b'a'] is appended and holds [b'z'] when the
    next [compress] reads it; then an empty and a two-byte [bytes]
    object. *)
Lemma Deflater_session_runs_witness :
  let o := mkOptions 0 15 1 0 15 in
  let calls :=
    [(Examples.holding [x61], Compress (PyMutable 0));
     (Examples.holding [x7a], Compress (PyBytes []));
     (host_ok, Compress (PyBytes [x62; x63]));
     (host_ok, Flush)] in
  snd (session Deflater_call Examples.fresh calls)
  = [CallDeflatePart o 2 0 [x7a] 0 1 0 [];
     CallDeflatePart o 2 0 [] 0 0 0 [x00; x01; x00; xfe; xff; x7a];
     CallDeflatePart o 2 1 [x62; x63] 0 2 2
                     [x00; x01; x00; xfe; xff; x7a; x02; x00]] /\
  snd (fst (session Deflater_call Examples.fresh calls))
  = mkDeflater o 0
      [x00; x01; x00; xfe; xff; x7a; x02; x00;
       x01; x00; xfe; xff; x62; x01; x01; x00; xfe; xff; x63]
      None true.
Proof.
  pose proof (Deflater_session_runs host_ok (Some Examples.default_args)
                Examples.fresh (Examples.holding [x61]) (PyMutable 0)
                [(Examples.holding [x7a], PyBytes []);
                 (host_ok, PyBytes [x62; x63])]
                host_ok [x7a] [[]; [x62; x63]]) as H.
  cbv zeta in H. apply H; clear H.
  - reflexivity.
  - vm_compute. repeat split.
  - vm_compute. repeat split; solve [lia | discriminate].
  - vm_compute. discriminate.
Defined.

(** X8.  After one or more appends on a new streaming encoder, and no
    [flush()] yet: every object but the newest has been read, by the call
    after its append, and encoded as a non-final block; the newest is
    pending, unread; the object is not finalized, every call returned,
    and the bytes returned so far are the output buffer without its last
    byte. *)
Theorem Deflater_appends_lag {zopfli : Zopfli}
    h args self first data rest chunks :
  Deflater_init h args = Return self ->
  appends_read data rest chunks ->
  blocks_extend (d_options self) chunks (0, []) ->
  size_of (snd (encode_blocks (d_options self) chunks (0, [])))
    <= SSIZE_MAX ->
  let r := encode_blocks (d_options self) chunks (0, []) in
  let '(vs, self', log) :=
    session Deflater_call self ((first, Compress data) :: compress_calls rest) in
  all_return vs /\
  returned vs = firstn (List.length (snd r) - 1) (snd r) /\
  self' = mkDeflater (d_options self) (fst r) (snd r)
                     (Some (last (map snd rest) data)) false /\
  List.length log = List.length rest.
Proof.
  intros Hi Hr Hx Hm r.
  destruct (Deflater_init_new h args self Hi) as (Hbp & Hout & Hd & Hf).
  cbn [session Deflater_call].
  unfold Deflater_compress, deflate_part. rewrite Hf, Hd.
  set (self' := mkDeflater _ _ _ (Some data) _).
  pose proof (appends_pending (d_options self) rest data self' chunks
                eq_refl Hf eq_refl Hr) as IH.
  cbn [d_bp d_out self'] in IH. rewrite Hbp, Hout in IH.
  specialize (IH Hx Hm). cbv zeta in IH. fold r in IH.
  destruct (session Deflater_call self' (compress_calls rest))
    as [[vs self2] logs].
  destruct IH as (Hall & Hcat & Hst & Hlog).
  split; [constructor; [eexists; reflexivity | exact Hall]|].
  split; [|split; assumption].
  rewrite returned_cons. exact Hcat.
Qed.

Lemma Deflater_appends_lag_witness :
  let '(vs, self', log) :=
    session Deflater_call Examples.fresh
            [(Examples.holding [x61], Compress (PyMutable 0));
             (Examples.holding [x7a], Compress (PyBytes []));
             (host_ok, Compress (PyBytes [x62; x63]))] in
  all_return vs /\
  returned vs = [x00; x01; x00; xfe; xff; x7a; x02] /\
  self' = mkDeflater (mkOptions 0 15 1 0 15) 2
                     [x00; x01; x00; xfe; xff; x7a; x02; x00]
                     (Some (PyBytes [x62; x63])) false /\
  List.length log = 2%nat.
Proof.
  pose proof (Deflater_appends_lag host_ok (Some Examples.default_args)
                Examples.fresh (Examples.holding [x61]) (PyMutable 0)
                [(Examples.holding [x7a], PyBytes []);
                 (host_ok, PyBytes [x62; x63])]
                [[x7a]; []]) as H.
  cbv zeta in H. apply H; clear H.
  - reflexivity.
  - vm_compute. repeat split.
  - vm_compute. repeat split; solve [lia | discriminate].
  - vm_compute. discriminate.
Defined.

(** ** Construction and module initialisation *)

(** X9.  A constructor fails for four reasons only: arguments that do
    not parse, a truth test of [verbose] that raises, a failing host
    service (the [io] module and the lock for the compressor, the lock for
    the streaming encoder) and, for the compressor, an unknown format.  No
    value of [iterations], [block_splitting] or [block_splitting_max]
    makes a constructor fail; none of them is checked. *)
Theorem constructors_succeed_iff {zopfli : Zopfli} h :
  (forall args,
     (exists self, Compressor_init h args = Return self) <->
     (exists a, args = Some a /\
                known_format (parsed (ca_format a) ZOPFLI_FORMAT_DEFLATE)
                = true /\
                0 <= ca_verbose a /\ h_io h = true /\ h_lock h = true)) /\
  (forall args,
     (exists self, Deflater_init h args = Return self) <->
     (exists a, args = Some a /\ 0 <= da_verbose a /\ h_lock h = true)).
Proof.
  split; intros args; split.
  - intros [self Hi]. unfold Compressor_init in Hi.
    destruct args as [a|]; [|discriminate]. exists a.
    destruct (known_format _); cbn [negb] in Hi; [|discriminate].
    cbn [verbose set_verbose] in Hi.
    destruct (Z.ltb_spec (ca_verbose a) 0); [discriminate|].
    destruct (h_io h); cbn [negb] in Hi; [|discriminate].
    destruct (h_lock h); cbn [negb] in Hi; [|discriminate].
    auto.
  - intros (a & -> & Hk & Hv & Hio & Hl). unfold Compressor_init.
    rewrite Hk, Hio, Hl. cbn [negb verbose set_verbose].
    destruct (Z.ltb_spec (ca_verbose a) 0); [lia|]. eexists; reflexivity.
  - intros [self Hi]. unfold Deflater_init in Hi.
    destruct args as [a|]; [|discriminate]. exists a.
    cbn [verbose set_verbose] in Hi.
    destruct (Z.ltb_spec (da_verbose a) 0); [discriminate|].
    destruct (h_lock h); cbn [negb] in Hi; [|discriminate].
    auto.
  - intros (a & -> & Hv & Hl). unfold Deflater_init.
    rewrite Hl. cbn [negb verbose set_verbose].
    destruct (Z.ltb_spec (da_verbose a) 0); [lia|]. eexists; reflexivity.
Qed.

(** The last [.] of a dotted name whose last component has none. *)
Lemma strrchr_dotted (cls : string) :
  strrchr cls "."%char = None ->
  forall package : string,
  strrchr (package ++ String "."%char cls) "."%char
  = Some (String "."%char cls).
Proof.
  intros Hcls package. induction package as [|a package IH].
  - cbn. rewrite Hcls. reflexivity.
  - cbn [String.append strrchr]. rewrite IH. reflexivity.
Qed.

(** X10.  [PyInit__zopfli] is all or nothing, and it exports each type
    under the last component of its [tp_name]: whatever dotted path
    [MODULE] is, when every host step succeeds the module holds the three
    format constants, [ZopfliCompressor], [ZopfliDeflater] and the PNG
    type under its class name; when any step fails, no module is
    returned. *)
Theorem PyInit_exports {zopfli : Zopfli} (MODULE PNG_class : string) ih :
  strrchr PNG_class "."%char = None ->
  let Compressor_name := (MODULE ++ ".ZopfliCompressor")%string in
  let Deflater_name := (MODULE ++ ".ZopfliDeflater")%string in
  let PNG_name := (MODULE ++ String "."%char PNG_class)%string in
  let steps :=
    [ih_create ih;
     ih_add_int ih "ZOPFLI_FORMAT_GZIP"%string;
     ih_add_int ih "ZOPFLI_FORMAT_ZLIB"%string;
     ih_add_int ih "ZOPFLI_FORMAT_DEFLATE"%string;
     ih_type_ready ih Compressor_name;
     ih_add_object ih "ZopfliCompressor"%string;
     ih_type_ready ih Deflater_name;
     ih_add_object ih "ZopfliDeflater"%string;
     ih_type_ready ih PNG_name;
     ih_add_object ih PNG_class] in
  (forallb (fun ok => ok) steps = true ->
   PyInit__zopfli MODULE PNG_name ih
   = Return
       (PyModule_Add
          (PyModule_Add
             (PyModule_Add
                [("ZOPFLI_FORMAT_DEFLATE"%string,
                  IntConstant ZOPFLI_FORMAT_DEFLATE);
                 ("ZOPFLI_FORMAT_ZLIB"%string, IntConstant ZOPFLI_FORMAT_ZLIB);
                 ("ZOPFLI_FORMAT_GZIP"%string, IntConstant ZOPFLI_FORMAT_GZIP)]
                "ZopfliCompressor" (TypeObject Compressor_name))
             "ZopfliDeflater" (TypeObject Deflater_name))
          PNG_class (TypeObject PNG_name))) /\
  (forallb (fun ok => ok) steps = false ->
   exists e, PyInit__zopfli MODULE PNG_name ih = Raise e).
Proof.
  intros Hpng Compressor_name Deflater_name PNG_name steps.
  unfold PyInit__zopfli, ADD_TYPE, PyModule_AddIntMacro,
    Compressor_tp_name, Deflater_tp_name.
  fold Compressor_name Deflater_name.
  assert (Ec : strrchr Compressor_name "."%char
               = Some ".ZopfliCompressor"%string)
    by (apply (strrchr_dotted "ZopfliCompressor"); reflexivity).
  assert (Ed : strrchr Deflater_name "."%char = Some ".ZopfliDeflater"%string)
    by (apply (strrchr_dotted "ZopfliDeflater"); reflexivity).
  assert (Ep : strrchr PNG_name "."%char = Some (String "."%char PNG_class))
    by (apply strrchr_dotted; exact Hpng).
  subst steps. cbn [forallb].
  destruct (ih_create ih); cbn [negb andb];
    [|split; [discriminate | intros _; eexists; reflexivity]].
  destruct (ih_add_int ih "ZOPFLI_FORMAT_GZIP"); cbn [negb andb];
    [|split; [discriminate | intros _; eexists; reflexivity]].
  destruct (ih_add_int ih "ZOPFLI_FORMAT_ZLIB"); cbn [negb andb];
    [|split; [discriminate | intros _; eexists; reflexivity]].
  destruct (ih_add_int ih "ZOPFLI_FORMAT_DEFLATE"); cbn [negb andb];
    [|split; [discriminate | intros _; eexists; reflexivity]].
  destruct (ih_type_ready ih Compressor_name); cbn [negb andb];
    [|split; [discriminate | intros _; eexists; reflexivity]].
  rewrite Ec.
  destruct (ih_add_object ih "ZopfliCompressor"); cbn [negb andb];
    [|split; [discriminate | intros _; eexists; reflexivity]].
  destruct (ih_type_ready ih Deflater_name); cbn [negb andb];
    [|split; [discriminate | intros _; eexists; reflexivity]].
  rewrite Ed.
  destruct (ih_add_object ih "ZopfliDeflater"); cbn [negb andb];
    [|split; [discriminate | intros _; eexists; reflexivity]].
  destruct (ih_type_ready ih PNG_name); cbn [negb andb];
    [|split; [discriminate | intros _; eexists; reflexivity]].
  rewrite Ep.
  destruct (ih_add_object ih PNG_class); cbn [negb andb];
    [|split; [discriminate | intros _; eexists; reflexivity]].
  split; [intros _; reflexivity | discriminate].
Qed.

(** [MODULE] is [zopfli._zopfli]. *)
Lemma PyInit_exports_witness :
  PyInit__zopfli "zopfli._zopfli" "zopfli._zopfli.ZopfliPNG" init_host_ok
  = Return
      [("ZopfliPNG"%string, TypeObject "zopfli._zopfli.ZopfliPNG");
       ("ZopfliDeflater"%string, TypeObject "zopfli._zopfli.ZopfliDeflater");
       ("ZopfliCompressor"%string,
        TypeObject "zopfli._zopfli.ZopfliCompressor");
       ("ZOPFLI_FORMAT_DEFLATE"%string, IntConstant 2);
       ("ZOPFLI_FORMAT_ZLIB"%string, IntConstant 1);
       ("ZOPFLI_FORMAT_GZIP"%string, IntConstant 0)].
Proof.
  pose proof (PyInit_exports "zopfli._zopfli" "ZopfliPNG" init_host_ok eq_refl)
    as [H _].
  apply H. reflexivity.
Defined.

(** ** When the result cannot be allocated *)

Lemma PyBytes_FromStringAndSize_no_memory h mem off n :
  h_alloc h = false ->
  raised (PyBytes_FromStringAndSize h mem off n) = true.
Proof.
  intros Ha. unfold PyBytes_FromStringAndSize. rewrite Ha.
  destruct (_ <? 0); reflexivity.
Qed.

(** X11.  The encoder runs before the result object is made, and its
    work is not undone when making that object fails.  A [flush()] of the
    compressor that fails there has run the encoder and leaves the object
    finalized, so that the output is lost; a call on the streaming encoder
    that fails there, having read [input] from the pending object,
    leaves the buffer and bit pointer advanced past the block just
    written and the object released, so that the bytes of this block are
    handed to no one. *)
Theorem encoded_output_lost {zopfli : Zopfli} h :
  h_alloc h = false -> h_view h = true ->
  (forall self : Compressor,
     c_flushed self = false -> h_io h = true ->
     let '(v, self', log) := Compressor_flush h self in
     raised v = true /\ log <> [] /\ c_flushed self' = true) /\
  (forall (self : Deflater) c data input,
     d_flushed self = false -> d_data self = Some data ->
     PyObject_GetBuffer h data = Return input ->
     let r := encode_chunk (d_options self) (call_final c) input
                           (d_bp self, d_out self) in
     let '(v, self', log) := Deflater_call h self c in
     raised v = true /\
     log = [CallDeflatePart (d_options self) 2 (call_final c) input 0
                            (size_of input) (d_bp self) (d_out self)] /\
     self' = mkDeflater (d_options self) (fst r) (snd r) None
                        match c with Flush => true | Compress _ => false end).
Proof.
  intros Ha Hv. split.
  - intros self Hf Hio. unfold Compressor_flush. rewrite Hf, Hio, Hv.
    cbn [negb].
    destruct (blocksplitting (c_options self) =? 3);
      (split; [now apply PyBytes_FromStringAndSize_no_memory|]);
      (split; [discriminate | reflexivity]).
  - intros self c data input Hf Hd Hg r. subst r.
    unfold encode_chunk. cbn [fst snd].
    assert (Hpart : forall final flag,
      let self0 := mkDeflater (d_options self) (d_bp self) (d_out self)
                              (d_data self) flag in
      let r := ZopfliDeflatePart (d_options self) 2 final input 0
                                 (size_of input) (d_bp self) (d_out self) in
      let '(v, self', log) := deflate_part h self0 final in
      raised v = true /\
      log = [CallDeflatePart (d_options self) 2 final input 0
                             (size_of input) (d_bp self) (d_out self)] /\
      self' = mkDeflater (d_options self) (fst r) (snd r) None flag).
    { intros final flag. cbv zeta. unfold deflate_part. cbn [d_data].
      rewrite Hd, Hg. cbn [d_options d_bp d_out d_flushed].
      destruct (ZopfliDeflatePart _ _ _ _ _ _ _ _) as [bp out].
      destruct (deflate_part_slice _ _ _) as [off n].
      split; [now apply PyBytes_FromStringAndSize_no_memory|].
      split; reflexivity. }
    destruct c as [data'|]; cbn [Deflater_call call_final].
    + unfold Deflater_compress. rewrite Hf.
      specialize (Hpart 0 false). cbv zeta in Hpart.
      replace (mkDeflater (d_options self) (d_bp self) (d_out self)
                          (d_data self) false) with self in Hpart
        by (destruct self; cbn in *; subst; reflexivity).
      destruct (deflate_part h self 0) as [[v self'] log].
      destruct Hpart as (Hr & Hlog & Hst).
      destruct v; cbn in Hr; try discriminate. auto.
    + unfold Deflater_flush. rewrite Hf. apply (Hpart 1 true).
Qed.

(** No memory for the result of the third [compress], nor for that of a
    [flush()] in try-both mode. *)
Lemma encoded_output_lost_witness :
  let h := mkHost true true false true (fun _ => None) in
  (let '(v, self', log) := Compressor_flush h Examples.try_both_abc in
   raised v = true /\ log <> [] /\ c_flushed self' = true) /\
  (let '(v, self', log) :=
     Deflater_call h Examples.pending_a (Compress (PyBytes [])) in
   raised v = true /\
   log = [CallDeflatePart (mkOptions 0 15 1 0 15) 2 0 [x61] 0 1 2 [x02; x00]] /\
   self' = mkDeflater (mkOptions 0 15 1 0 15) 0
                      [x02; x00; x01; x00; xfe; xff; x61] None false).
Proof.
  destruct (encoded_output_lost (mkHost true true false true (fun _ => None))
              eq_refl eq_refl) as [Hc Hd].
  split.
  - exact (Hc Examples.try_both_abc eq_refl eq_refl).
  - exact (Hd Examples.pending_a (Compress (PyBytes [])) (PyBytes [x61])
              [x61] eq_refl eq_refl eq_refl).
Defined.
